(** * GraphRAG pipeline: the agent loop, its tools and the session facade

    A shallow embedding of [src/graph_nodes.py], [src/graph_state.py] and
    [src/chatbot.py].  Python values are a small universe [pyval]; a [dict]
    is a [gmap string pyval]; the external services (vector index, graph
    store, text-to-Cypher chain, web search client, graders, language model)
    are records of oracles that answer or raise; code that can raise runs in
    an exception monad, and the tools additionally thread the list of
    calls they place on those services. *)

From stdpp Require Import gmap strings list fin_maps.


(** ** Python values *)

Module Py.

#[warnings="-register-all"]
Inductive pyval : Type :=
| PyNone
| PyBool (b : bool)
| PyInt (z : Z)
| PyStr (s : string)
| PyList (l : list pyval)
| PyDict (d : gmap string pyval).

(** A Python [dict] with string keys. *)
Abbreviation dict := (gmap string pyval).

(** [bool(v)]: the truth value Python gives to [v] in [if v], [not v] and
    [a or b]. *)
Definition truthy (v : pyval) : bool :=
  match v with
  | PyNone => false
  | PyBool b => b
  | PyInt z => negb (Z.eqb z 0)
  | PyStr s => negb (String.eqb s "")
  | PyList l => match l with [] => false | _ :: _ => true end
  | PyDict d => negb (bool_decide (d = ∅))
  end.

(** [a or b] *)
Definition py_or (a b : pyval) : pyval := if truthy a then a else b.

(** [d.get(k, dflt)] *)
Definition dict_get (d : dict) (k : string) (dflt : pyval) : pyval :=
  default dflt (d !! k).

(** Instances of Python's [Exception], by class name.  [BaseException]s
    outside [Exception] (a keyboard interrupt, interpreter exit) are not
    raised by any modelled operation. *)
Inductive exn : Type := Exception (cls : string).

Inductive result (A : Type) : Type :=
| Ok (a : A)
| Raise (e : exn).
Arguments Ok {A} a.
Arguments Raise {A} e.

#[export] Instance result_ret : MRet result := fun A a => Ok a.
#[export] Instance result_bind : MBind result := fun A B f m =>
  match m with Ok a => f a | Raise e => Raise e end.

(** [d[k]] *)
Definition dict_index {V} (d : gmap string V) (k : string) : result V :=
  match d !! k with Some v => Ok v | None => Raise (Exception "KeyError") end.

(** [sep.join(items)]: every item has to be a [str]. *)
Fixpoint str_join (sep : string) (items : list pyval) : result string :=
  match items with
  | [] => Ok ""
  | [PyStr s] => Ok s
  | PyStr s :: rest =>
      match str_join sep rest with
      | Ok t => Ok (s +:+ sep +:+ t)
      | Raise e => Raise e
      end
  | _ :: _ => Raise (Exception "TypeError")
  end.

(** [for x in v]: the items Python iterates over, or [TypeError]. A [dict]
    yields its keys and a [str] its characters. *)
Definition py_iter (v : pyval) : result (list pyval) :=
  match v with
  | PyList l => Ok l
  | PyDict d => Ok (PyStr <$> (map_to_list d).*1)
  | PyStr s => Ok ((λ c, PyStr (String c "")) <$> String.list_ascii_of_string s)
  | PyNone | PyBool _ | PyInt _ => Raise (Exception "TypeError")
  end.

End Py.
Export Py.

(** ** External services and the calls placed on them *)

Module Services.

(** What [vector_store.similarity_search] yields: objects with the
    attributes [page_content] and [metadata]. *)
Record Document := { page_content : pyval; metadata : dict }.

Record VectorStore := {
  similarity_search : string → nat → result (list Document) }.

(** [graph.query(cypher, params=...)] answers a list of records. *)
Record Neo4jGraph := {
  query : string → dict → result (list dict) }.

(** [graph_qa_chain.invoke({...})] *)
Record GraphCypherQAChain := {
  chain_invoke : dict → result pyval }.

(** [tavily_client.search(query=, max_results=, search_depth=)] *)
Record TavilyClient := {
  search : string → nat → string → result dict }.

(** The structured output of a grader: an object with [binary_score]. *)
Record Grade := { binary_score : string }.

Record Grader := {
  grader_invoke : dict → result Grade }.

(** [rewriter_chain.invoke({...})] *)
Record RewriterChain := {
  rewriter_invoke : dict → result string }.

Inductive call : Type :=
| SimilaritySearch (q : string) (k : nat)
| GraphQuery (cypher : string) (params : dict)
| ChainInvoke (input : dict)
| TavilySearch (q : string) (max_results : nat) (search_depth : string)
| GraderInvoke (input : dict)
| RewriterInvoke (input : dict).

(** A tool body: it may raise, and it extends the list of calls placed on
    the services so far. *)
Definition M (A : Type) : Type := list call → result A * list call.

#[export] Instance M_ret : MRet M := fun A a log => (Ok a, log).
#[export] Instance M_bind : MBind M := fun A B f m log =>
  match m log with
  | (Ok a, log') => f a log'
  | (Raise e, log') => (Raise e, log')
  end.

Definition raise {A} (e : exn) : M A := fun log => (Raise e, log).

(** Place call [c], whose answer is [r]. *)
Definition perform {A} (c : call) (r : result A) : M A :=
  fun log => (r, log ++ [c]).

(** Lift a computation that touches no service. *)
Definition pure {A} (r : result A) : M A := fun log => (r, log).

(** [try: body / except Exception as e: handler e]; calls placed by the body
    before it raised stay placed. *)
Definition try_catch {A} (body : M A) (handler : exn → M A) : M A :=
  fun log =>
    match body log with
    | (Ok a, log') => (Ok a, log')
    | (Raise e, log') => handler e log'
    end.

(** [for x in xs: acc = body acc x] *)
Fixpoint for_each {A S} (xs : list A) (body : S → A → M S) (acc : S) : M S :=
  match xs with
  | [] => mret acc
  | x :: rest => acc' ← body acc x; for_each rest body acc'
  end.

(** Run a tool from an empty call log. *)
Definition run {A} (m : M A) : result A * list call := m [].
Definition returned {A} (m : M A) : result A := (run m).1.
Definition calls_of {A} (m : M A) : list call := (run m).2.

End Services.
Export Services.

(** ** The tools of [src/graph_nodes.py] *)

Module GraphNodes.

(** [d.get("content", "") or d.get("page_content", "")] *)
Definition doc_text (d : dict) : pyval :=
  py_or (dict_get d "content" (PyStr "")) (dict_get d "page_content" (PyStr "")).

Definition call_grader (g : Grader) (input : dict) : M Grade :=
  perform (GraderInvoke input) (grader_invoke g input).

Definition call_graph (g : Neo4jGraph) (cypher : string) (params : dict) : M (list dict) :=
  perform (GraphQuery cypher params) (query g cypher params).

(** [rewrite_query_tool(question, rewriter_chain)] *)
Definition rewrite_query_tool (question : string) (rewriter_chain : option RewriterChain)
  : M string :=
  match rewriter_chain with
  | None => mret question
  | Some chain =>
      try_catch
        (perform (RewriterInvoke {[ "question" := PyStr question ]})
                 (rewriter_invoke chain {[ "question" := PyStr question ]}))
        (λ _, mret question)
  end.

(** One turn of the [for d in documents] loop of [grade_documents_tool],
    with its own [try]/[except] that keeps [d] when grading raises. *)
Definition grade_document (relevance_grader : Grader) (question : string)
    (filtered_docs : list dict) (d : dict) : M (list dict) :=
  try_catch
    (let content := doc_text d in
     if truthy content then
       grade ← call_grader relevance_grader
                  {[ "question" := PyStr question; "document" := content ]};
       if String.eqb (binary_score grade) "yes"
       then mret (filtered_docs ++ [d])
       else mret filtered_docs
     else mret filtered_docs)
    (λ doc_error, mret (filtered_docs ++ [d])).

(** [grade_documents_tool(documents, question, relevance_grader)] *)
Definition grade_documents_tool (documents : list dict) (question : string)
    (relevance_grader : option Grader) : M (list dict) :=
  match relevance_grader, documents with
  | None, _ | _, [] => mret documents
  | Some grader, _ :: _ =>
      try_catch
        (for_each documents (grade_document grader question) [])
        (λ e, mret documents)
  end.

Definition nl : string := "
".

(** The text handed to the hallucination grader: the non-empty document
    texts joined by a blank line. *)
Definition doc_context (documents : list dict) : result string :=
  str_join (nl +:+ nl) (filter (λ content, truthy content = true) (doc_text <$> documents)).

(** [grade_answer_tool(generation, documents, question,
                       hallucination_grader, usefulness_grader)]. Past the
    first guard both graders are there, so the inner [if hallucination_grader]
    and [if usefulness_grader] always take their branch. *)
Definition grade_answer_tool (generation : string) (documents : list dict)
    (question : string) (hallucination_grader usefulness_grader : option Grader)
  : M string :=
  match hallucination_grader, usefulness_grader with
  | Some hg, Some ug =>
      try_catch
        (context ← pure (doc_context documents);
         hallucination_grade ← call_grader hg
           {[ "documents" := PyStr context; "generation" := PyStr generation ]};
         if String.eqb (binary_score hallucination_grade) "no"
         then mret "non supportato"
         else
           usefulness_grade ← call_grader ug
             {[ "question" := PyStr question; "generation" := PyStr generation ]};
           if String.eqb (binary_score usefulness_grade) "no"
           then mret "non utile"
           else mret "utile")
        (λ e, mret "utile")
  | _, _ => mret "utile"
  end.

Definition related_query : string := "
                                MATCH (d:Document)-[r]-(related)
                                WHERE d.id = $doc_id OR d.source = $doc_id
                                RETURN d.name as document_name,
                                       collect(DISTINCT related.name) as related_entities,
                                       collect(DISTINCT labels(related)[0]) as entity_types
                                LIMIT 5
                            ".

(** The body of the [for doc in results] loop of [hybrid_search_tool]:
    build the output document and, with a graph, try to attach the first
    record of related context. *)
Definition enhance (graph : option Neo4jGraph) (doc : Document) : M dict :=
  let enhanced_doc : dict :=
    {[ "content" := page_content doc; "metadata" := PyDict (metadata doc) ]} in
  match graph with
  | None => mret enhanced_doc
  | Some g =>
      try_catch
        (let doc_id :=
           py_or (dict_get (metadata doc) "id" PyNone)
                 (dict_get (metadata doc) "source" (PyStr "")) in
         if truthy doc_id then
           related_results ← call_graph g related_query {[ "doc_id" := doc_id ]};
           match related_results with
           | first :: _ => mret (<[ "related_context" := PyDict first ]> enhanced_doc)
           | [] => mret enhanced_doc
           end
         else mret enhanced_doc)
        (λ graph_error, mret enhanced_doc)
  end.

(** [create_hybrid_search_tool(vector_store, graph)] then
    [hybrid_search_tool(query)] *)
Definition hybrid_search_tool (vector_store : option VectorStore)
    (graph : option Neo4jGraph) (q : string) : M (list dict) :=
  match vector_store with
  | None => mret []
  | Some vs =>
      try_catch
        (results ← perform (SimilaritySearch q 3) (similarity_search vs q 3);
         enhanced_results ←
           for_each results
             (λ acc doc, enhanced_doc ← enhance graph doc; mret (acc ++ [enhanced_doc])) [];
         mret ([] ++ enhanced_results))
        (λ e, mret [])
  end.

Definition fallback_query : string := "
                        MATCH (e)
                        WHERE toLower(e.name) CONTAINS toLower($query) 
                           OR toLower(e.description) CONTAINS toLower($query)
                        RETURN e.type as type, e.name as name, e.description as description
                        LIMIT 5
                    ".

(** [graph_qa_chain.invoke(...)]; on [None] the attribute access raises. *)
Definition call_chain (graph_qa_chain : option GraphCypherQAChain) (input : dict) : M pyval :=
  match graph_qa_chain with
  | Some chain => perform (ChainInvoke input) (chain_invoke chain input)
  | None => raise (Exception "AttributeError")
  end.

(** [create_structured_query_tool(graph_qa_chain, graph)] then
    [structured_query_tool(query)]. [dict(record)] copies a record as it is. *)
Definition structured_query_tool (graph_qa_chain : option GraphCypherQAChain)
    (graph : option Neo4jGraph) (q : string) : M (list dict) :=
  match graph_qa_chain, graph with
  | None, None => mret []
  | _, _ =>
      try_catch
        (try_catch
           (result ← call_chain graph_qa_chain {[ "query" := PyStr q ]};
            mret ([] ++ [ ({[ "question" := PyStr q; "result" := result ]} : dict) ]))
           (λ e,
              match graph with
              | Some g =>
                  results ← call_graph g fallback_query {[ "query" := PyStr q ]};
                  mret ([] ++ results)
              | None => mret []
              end))
        (λ e, mret [])
  end.

(** One search hit turned into an output document. *)
Definition web_result (r : pyval) : result dict :=
  match r with
  | PyDict fields =>
      Ok ({[ "content" := dict_get fields "content" (PyStr "");
             "url" := dict_get fields "url" (PyStr "");
             "title" := dict_get fields "title" (PyStr "") ]} : dict)
  | _ => Raise (Exception "AttributeError")
  end.

(** [create_web_search_tool(tavily_client)] then [web_search_tool(query)] *)
Definition web_search_tool (tavily_client : option TavilyClient) (q : string)
  : M (list dict) :=
  match tavily_client with
  | None => mret []
  | Some client =>
      try_catch
        (search_results ← perform (TavilySearch q 3 "advanced") (search client q 3 "advanced");
         match search_results !! "results" with
         | Some hits =>
             items ← pure (py_iter hits);
             for_each items (λ web_results r, d ← pure (web_result r); mret (web_results ++ [d])) []
         | None => mret []
         end)
        (λ e, mret [])
  end.

End GraphNodes.

(** ** The agent loop and the session facade of [src/chatbot.py] *)

Module Chatbot.

Record ToolCall := { name : string; args : dict; id : string }.

(** A turn of the conversation, as the message classes of the source:
    the user's question, an assistant turn with its tool-call requests, and
    the result of one tool call, correlated by the call identifier. Every
    message has an identifier of its own, [None] as long as nobody has set
    it. *)
Inductive Message : Type :=
| HumanMessage (content : string) (message_id : option string)
| AIMessage (content : string) (tool_calls : list ToolCall) (message_id : option string)
| ToolMessage (content : string) (tool_call_id : string) (message_id : option string).

Definition content (m : Message) : string :=
  match m with
  | HumanMessage c _ | AIMessage c _ _ | ToolMessage c _ _ => c
  end.

Definition tool_calls (m : Message) : list ToolCall :=
  match m with
  | AIMessage _ requests _ => requests
  | HumanMessage _ _ | ToolMessage _ _ _ => []
  end.

Definition msg_id (m : Message) : option string :=
  match m with
  | HumanMessage _ i | AIMessage _ _ i | ToolMessage _ _ i => i
  end.

(** [{m.id: i for i, m in enumerate(merged)}.get(i)]: the position of the
    last message of [merged] with the identifier [i]. *)
Fixpoint index_by_id (merged : list Message) (i : string) : option nat :=
  match merged with
  | [] => None
  | m :: rest =>
      match index_by_id rest i with
      | Some k => Some (S k)
      | None => if decide (msg_id m = Some i) then Some 0 else None
      end
  end.

(** What the reducer does with one message of the update: a message whose
    identifier a message of the history bears takes the place of that
    message; any other message is appended. A message without identifier
    is given a fresh one by the reducer (a UUID, different from every other
    identifier), so it is appended; in the history it keeps [None] here. *)
Definition add_message (merged : list Message) (m : Message) : list Message :=
  match msg_id m with
  | Some i =>
      match index_by_id merged i with
      | Some k => <[ k := m ]> merged
      | None => merged ++ [m]
      end
  | None => merged ++ [m]
  end.

(** [src/graph_state.py]: [messages: Annotated[list, add_messages]], the
    reducer of [langgraph.graph.message]. The fresh identifier is written
    into the message object: a model that hands out an object it has handed
    out before hands out a message with that identifier, and is here a
    model whose response carries the identifier. *)
Definition add_messages (left right : list Message) : list Message :=
  foldl add_message left right.

(** The language model with the tools bound: the answer to its [i]-th
    invocation on a message history, or an exception. *)
Definition LLM : Type := nat → list Message → result Message.

(** The nodes of the workflow; [agent] is the entry point. *)
Inductive node : Type := agent | tools | END.

(** A point of a run: the node to execute next, the [messages] channel and
    how often the model has been invoked so far. *)
Record config := { next : node; messages : list Message; invocations : nat }.

Section Workflow.

Variable llm_with_tools : LLM.

(** What the tool node makes of one request: the registry lookup, the call
    of the tool and the rendering of its return value (or of its error) as
    the text of the result message. *)
Variable execute : ToolCall → string.

(** [agent_node(state)]: invoke the model on the history, return the update
    [{"messages": [response]}]. *)
Definition agent_node (i : nat) (state : list Message) : result (list Message) :=
  response ← llm_with_tools i state;
  mret [response].

(** [ToolNode(tools)]: one new result message for each request of the last
    assistant turn. *)
Definition tool_node (state : list Message) : result (list Message) :=
  match last state with
  | Some (AIMessage _ requests _) =>
      Ok ((λ tc, ToolMessage (execute tc) (id tc) None) <$> requests)
  | Some (HumanMessage _ _) | Some (ToolMessage _ _ _) | None =>
      Raise (Exception "ValueError")
  end.

(** [tools_condition]: to the tool node when the last message requests
    tools, to [END] otherwise. *)
Definition tools_condition (state : list Message) : node :=
  match last state with
  | Some m => match tool_calls m with [] => END | _ :: _ => tools end
  | None => END
  end.

(** One step of the compiled graph: run the node, merge its update with
    [add_messages], follow the edge ([agent] by the conditional edge,
    [tools] always back to [agent]). *)
Definition superstep (c : config) : result config :=
  match next c with
  | agent =>
      update ← agent_node (invocations c) (messages c);
      let state := add_messages (messages c) update in
      mret {| next := tools_condition state; messages := state;
              invocations := S (invocations c) |}
  | tools =>
      update ← tool_node (messages c);
      mret {| next := agent; messages := add_messages (messages c) update;
              invocations := invocations c |}
  | END => mret c
  end.

(** How a run stands after a number of steps. *)
Inductive outcome : Type :=
| Finished (final : list Message)
| Failed (e : exn)
| Running (c : config).

(** At most [budget] steps from [c]. *)
Fixpoint run_from (budget : nat) (c : config) : outcome :=
  match next c with
  | END => Finished (messages c)
  | agent | tools =>
      match budget with
      | 0 => Running c
      | S budget' =>
          match superstep c with
          | Ok c' => run_from budget' c'
          | Raise e => Failed e
          end
      end
  end.

Definition entry (initial : list Message) : config :=
  {| next := agent; messages := initial; invocations := 0 |}.

(** The step limit of a run. [build_workflow] compiles the graph without
    one and [ask] calls [app.invoke(initial_state)] without a
    configuration: the run is under the default [recursion_limit] of the
    LangGraph runtime. *)
Definition recursion_limit : nat := 25.

(** [app.invoke(initial_state)]: the input is merged into the empty
    channel and the graph runs from its entry point. The call returns the
    final history, raises what a node raised, or raises
    [GraphRecursionError] when the step limit is used up before [END]. *)
Definition invoke (initial : list Message) : result (list Message) :=
  match run_from recursion_limit (entry (add_messages [] initial)) with
  | Finished final => Ok final
  | Failed e => Raise e
  | Running _ => Raise (Exception "GraphRecursionError")
  end.

(** [c'] comes right after [c] in a run. *)
Definition steps_to (c c' : config) : Prop :=
  next c ≠ END ∧ superstep c = Ok c'.

(** The points a run from [c0] passes through. *)
Inductive reachable (c0 : config) : config → Prop :=
| reachable_start : reachable c0 c0
| reachable_step c c' : reachable c0 c → steps_to c c' → reachable c0 c'.

End Workflow.

(** A model that answers from a fixed list of responses, one for each
    invocation, and raises once the list is used up. Responses without
    identifier are message objects of their own. *)
Definition scripted (script : list Message) : LLM :=
  λ i _, match script !! i with
         | Some response => Ok response
         | None => Raise (Exception "StopIteration")
         end.

(** Every request of every assistant turn in [history] has a result message
    with its identifier later in [history]. *)
Definition resolved (history : list Message) : Prop :=
  ∀ i m tc, history !! i = Some m → tc ∈ tool_calls m →
    ∃ j body mid, i < j ∧ history !! j = Some (ToolMessage body (id tc) mid).

(** *** The session facade *)

(** A message as [ask] may find it in the final state: a message object
    (it has the attribute [content]), a plain [dict], or some other object
    with neither. *)
Inductive py_message : Type :=
| Structured (m : Message)
| Mapping (d : dict)
| Opaque.

(** The state dictionary [{"messages": [...]}]. *)
Abbreviation AgentState := (gmap string (list py_message)).

(** A computation that returns, raises, or has not ended ([None]). *)
Definition partial (A : Type) : Type := option (result A).

#[export] Instance partial_ret : MRet partial := fun A a => Some (Ok a).
#[export] Instance partial_bind : MBind partial := fun A B f m =>
  match m with
  | Some (Ok a) => f a
  | Some (Raise e) => Some (Raise e)
  | None => None
  end.

Definition try_partial {A} (body : partial A) (handler : exn → partial A) : partial A :=
  match body with
  | Some (Ok a) => Some (Ok a)
  | Some (Raise e) => handler e
  | None => None
  end.

(** A compiled workflow: [app.invoke]. *)
Definition App : Type := AgentState → partial AgentState.

(** The loop only takes message objects. *)
Definition as_message (m : py_message) : result Message :=
  match m with
  | Structured m => Ok m
  | Mapping _ | Opaque => Raise (Exception "ValueError")
  end.

(** [build_workflow()]: the compiled workflow as an [App]. *)
Definition build_workflow (llm_with_tools : LLM) (execute : ToolCall → string) : App :=
  λ initial_state,
    match dict_index initial_state "messages" ≫= mapM as_message with
    | Raise e => Some (Raise e)
    | Ok initial =>
        match invoke llm_with_tools execute initial with
        | Ok final => Some (Ok {[ "messages" := Structured <$> final ]})
        | Raise e => Some (Raise e)
        end
    end.

Definition no_answer : string := "Mi dispiace, non sono riuscito a generare una risposta.".
Definition generic_error : string :=
  "Mi dispiace, si è verificato un errore nel processare la tua domanda.".

(** [ask(question)], given what the call [self.build_workflow()] does: it
    returns an [App] (the one above, or the stand-in a test patches in) or
    it raises. *)
Definition ask (built : partial App) (question : string) : partial pyval :=
  try_partial
    (app ← built;
     let initial_state : AgentState :=
       {[ "messages" := [Structured (HumanMessage question None)] ]} in
     final_state ← app initial_state;
     final_messages ← Some (dict_index final_state "messages");
     match last final_messages with
     | Some (Structured last_message) => mret (PyStr (content last_message))
     | Some (Mapping last_message) =>
         match last_message !! "content" with
         | Some text => mret text
         | None => mret (PyStr no_answer)
         end
     | Some Opaque | None => mret (PyStr no_answer)
     end)
    (λ e, mret (PyStr generic_error)).

End Chatbot.

(** ** Stand-ins for the services, as the test-suite mocks them *)

Module Mocks.
Import GraphNodes Chatbot.

(** A grader whose verdict is always [score]. *)
Definition grader_says (score : string) : Grader :=
  {| grader_invoke := λ _, Ok {| binary_score := score |} |}.

(** A grader whose every invocation raises. *)
Definition grader_raises : Grader :=
  {| grader_invoke := λ _, Raise (Exception "Exception") |}.

(** A grader that judges a document pertinent exactly when its text is
    [wanted], and raises on the text [poison]. *)
Definition grader_on (wanted poison : string) : Grader :=
  {| grader_invoke := λ input,
       match input !! "document" with
       | Some (PyStr text) =>
           if String.eqb text poison then Raise (Exception "Exception")
           else Ok {| binary_score := if String.eqb text wanted then "yes" else "no" |}
       | _ => Ok {| binary_score := "no" |}
       end |}.

Definition vector_store_returning (docs : list Document) : VectorStore :=
  {| similarity_search := λ _ _, Ok docs |}.

Definition vector_store_raising : VectorStore :=
  {| similarity_search := λ _ _, Raise (Exception "Exception") |}.

Definition tavily_returning (answer : dict) : TavilyClient :=
  {| search := λ _ _ _, Ok answer |}.

Definition tavily_raising : TavilyClient :=
  {| search := λ _ _ _, Raise (Exception "Exception") |}.

Definition rewriter_returning (rewritten : string) : RewriterChain :=
  {| rewriter_invoke := λ _, Ok rewritten |}.

Definition graph_returning (records : list dict) : Neo4jGraph :=
  {| query := λ _ _, Ok records |}.

Definition graph_raising : Neo4jGraph :=
  {| query := λ _ _, Raise (Exception "Exception") |}.

Definition chain_returning (v : pyval) : GraphCypherQAChain :=
  {| chain_invoke := λ _, Ok v |}.

Definition chain_raising : GraphCypherQAChain :=
  {| chain_invoke := λ _, Raise (Exception "Exception") |}.

(** [test_hybrid_search_tool_with_graph_context] *)
Definition doc1 : Document :=
  {| page_content := PyStr "Test content"; metadata := {[ "id" := PyStr "doc1" ]} |}.

Definition related_record : dict :=
  {[ "document_name" := PyStr "Test Document";
     "related_entities" := PyList [PyStr "Entity1"];
     "entity_types" := PyList [PyStr "Type1"] ]}.

(** [test_structured_query_tool_fallback] *)
Definition entity_record : dict :=
  {[ "name" := PyStr "Test"; "type" := PyStr "Entity"; "description" := PyStr "Test entity" ]}.

(** [test_structured_query_tool_success]: what the mocked chain returns. *)
Definition chain_answer : pyval := PyDict {[ "result" := PyStr "Test result" ]}.

(** A model that requests the same tool at every invocation. *)
Definition search_call : ToolCall :=
  {| name := "hybrid_search_tool"; args := {[ "query" := PyStr "Test question" ]};
     id := "call_1" |}.


Definition no_results : ToolCall → string := λ _, "[]".

(** [test_adaptive_rag_workflow]: rewrite, search, then the final answer. *)
Definition adaptive_script : list Message :=
  [ AIMessage "" [ {| name := "rewrite_query_tool";
                      args := {[ "question" := PyStr "What are the rules?" ]};
                      id := "call_1" |} ] None;
    AIMessage "" [ {| name := "hybrid_search_tool";
                      args := {[ "query" := PyStr "Rewritten question about privacy regulations" ]};
                      id := "call_2" |} ] None;
    AIMessage "Final answer about privacy regulations" [] None ].

(** Thirteen searches, then the final answer. *)
Definition long_script : list Message :=
  replicate 13 (AIMessage "" [search_call] None) ++ [AIMessage "Final answer" [] None].

(** A model whose second response bears the identifier of its first: a
    search, then the final answer. *)
Definition replacing_script : list Message :=
  [ AIMessage "" [search_call] (Some "run-1");
    AIMessage "Final answer" [] (Some "run-1") ].

End Mocks.

(** ** Vocabulary of the statements *)

Module Predicates.
Import GraphNodes Chatbot.

(** What [grade_documents_tool] submits to the grader for document [d]. *)
Definition grader_input (question : string) (d : dict) : dict :=
  {[ "question" := PyStr question; "document" := doc_text d ]}.

(** [d] has text under [content] or [page_content]. *)
Definition has_text (d : dict) : Prop := truthy (doc_text d) = true.

(** The grader was asked about [d] and answered ['yes']. *)
Definition graded_pertinent (g : Grader) (question : string) (d : dict) : Prop :=
  has_text d ∧
  ∃ grade, grader_invoke g (grader_input question d) = Ok grade ∧ binary_score grade = "yes".

(** The grader was asked about [d] and raised. *)
Definition grading_raises (g : Grader) (question : string) (d : dict) : Prop :=
  has_text d ∧ ∃ e, grader_invoke g (grader_input question d) = Raise e.

(** The same two cases as a test that computes. *)
Definition keeps (g : Grader) (question : string) (d : dict) : bool :=
  truthy (doc_text d) &&
  match grader_invoke g (grader_input question d) with
  | Ok grade => String.eqb (binary_score grade) "yes"
  | Raise _ => true
  end.

(** The inputs of the two checks of [grade_answer_tool]. *)
Definition hallucination_input (context generation : string) : dict :=
  {[ "documents" := PyStr context; "generation" := PyStr generation ]}.
Definition usefulness_input (question generation : string) : dict :=
  {[ "question" := PyStr question; "generation" := PyStr generation ]}.

(** No field of the record holds a mapping. *)
Definition flat (record : dict) : Prop :=
  ∀ field d, record !! field ≠ Some (PyDict d).

(** The document identifier [enhance] looks up the graph with. *)
Definition doc_id_of (doc : Document) : pyval :=
  py_or (dict_get (metadata doc) "id" PyNone) (dict_get (metadata doc) "source" (PyStr "")).

(** The base output document of a match. *)
Definition base_doc (doc : Document) : dict :=
  {[ "content" := page_content doc; "metadata" := PyDict (metadata doc) ]}.

(** The related context the graph has for a match: the first record it
    answers for the match's identifier, if the match has one and the query
    answers at least one record. *)
Definition related_context (graph : option Neo4jGraph) (doc : Document) : option pyval :=
  match graph with
  | Some g =>
      if truthy (doc_id_of doc) then
        match query g related_query {[ "doc_id" := doc_id_of doc ]} with
        | Ok (first :: _) => Some (PyDict first)
        | Ok [] | Raise _ => None
        end
      else None
  | None => None
  end.

(** The output document of a match. *)
Definition enriched (graph : option Neo4jGraph) (doc : Document) : dict :=
  match related_context graph doc with
  | Some context => <[ "related_context" := context ]> (base_doc doc)
  | None => base_doc doc
  end.

(** The graph queries placed for a match. *)
Definition enrichment_calls (graph : option Neo4jGraph) (doc : Document) : list call :=
  match graph with
  | Some g =>
      if truthy (doc_id_of doc)
      then [GraphQuery related_query {[ "doc_id" := doc_id_of doc ]}]
      else []
  | None => []
  end.

(** The primary path of [structured_query_tool] raises: there is no chain
    to invoke, or its invocation raises. *)
Definition primary_raises (chain : option GraphCypherQAChain) (q : string) : Prop :=
  match chain with
  | Some c => ∃ e, chain_invoke c {[ "query" := PyStr q ]} = Raise e
  | None => True
  end.

(** A response that requests no tool. *)
Definition terminal (m : Message) : Prop := tool_calls m = [].

(** The message is new to the history: it bears no identifier, or one
    that no message of the history bears. *)
Definition fresh (history : list Message) (m : Message) : Prop :=
  ∀ i old, msg_id m = Some i → old ∈ history → msg_id old ≠ Some i.

(** The responses that bear an identifier bear pairwise different ones. *)
Definition distinct_ids (script : list Message) : Prop :=
  NoDup (omap msg_id script).

(** The identifiers in the history are those of the responses [used]. *)
Definition ids_from (used history : list Message) : Prop :=
  ∀ old i, old ∈ history → msg_id old = Some i → i ∈ omap msg_id used.



(** The history ends with a message that requests nothing and that the
    model cannot name: the question or the result of a tool. *)
Definition awaits_model (history : list Message) : Prop :=
  ∃ m, last history = Some m ∧ tool_calls m = [] ∧ msg_id m = None.


(** The state [ask] seeds the loop with. *)
Definition initial_state (question : string) : AgentState :=
  {[ "messages" := [Structured (HumanMessage question None)] ]}.

(** [ask] finds no content in the message: it is neither a message object
    nor a mapping with the key [content]. *)
Definition no_content (m : py_message) : Prop :=
  match m with
  | Structured _ => False
  | Mapping d => d !! "content" = None
  | Opaque => True
  end.

(** The message carries the text [X] in one of the two shapes [ask]
    reads. *)
Definition carries (m : py_message) (X : string) : Prop :=
  match m with
  | Structured m => content m = X
  | Mapping d => d !! "content" = Some (PyStr X)
  | Opaque => False
  end.

End Predicates.

(** * The rest of the cited files *)

(** ** [metadata_filter_tool] of [src/graph_nodes.py] *)

Module MoreTools.
Import GraphNodes.

(** The vector store as [metadata_filter_tool] calls it:
    [similarity_search(query, k=3, filter=filter_dict)]. *)
Record FilterableVectorStore := {
  similarity_search_filter : string → nat → dict → result (list Document) }.

(** [try: body / except Exception as e: handler e], for code whose calls
    are not logged. *)
Definition try_result {A} (body : result A) (handler : exn → result A) : result A :=
  match body with Ok a => Ok a | Raise e => handler e end.

(** [create_metadata_filter_tool(vector_store)] then
    [metadata_filter_tool(query, filter_dict)] *)
Definition metadata_filter_tool (vector_store : option FilterableVectorStore)
    (q : string) (filter_dict : dict) : result (list dict) :=
  match vector_store with
  | None => Ok []
  | Some vs =>
      try_result
        (results ← similarity_search_filter vs q 3 filter_dict;
         let enhanced_results : list dict :=
           (λ doc, {[ "content" := page_content doc;
                      "metadata" := PyDict (metadata doc) ]}) <$> results in
         mret enhanced_results)
        (λ e, Ok [])
  end.

End MoreTools.

(** ** [GraphRAGChatbot.__init__] and [main] of [src/chatbot.py] *)

Module Startup.
Import GraphNodes Chatbot.

(** The three ways [__init__] tries to obtain the vector store, each a
    constructor call with fixed arguments that returns a store or raises:
    [Neo4jVector.from_existing_index] with hybrid search,
    [Neo4jVector.from_existing_graph], and [Neo4jVector.from_existing_index]
    without the keyword index. *)
Record Neo4jVectorFactory := {
  from_existing_index_hybrid : result VectorStore;
  from_existing_graph : result VectorStore;
  from_existing_index_basic : result VectorStore }.

Definition labels_query : string := "
                    MATCH (n) 
                    WITH DISTINCT labels(n) as label_list
                    UNWIND label_list as label
                    RETURN DISTINCT label
                ".

(** The nested [try]/[except] of [__init__] that sets [self.vector_store];
    [None] when all three attempts raise. The second attempt first reads
    the labels of the graph, [record['label']] for every record. *)
Definition init_vector_store (factory : Neo4jVectorFactory) (graph : Neo4jGraph)
  : M (option VectorStore) :=
  try_catch
    (vector_store ← pure (from_existing_index_hybrid factory);
     mret (Some vector_store))
    (λ e,
       try_catch
         (result ← call_graph graph labels_query ∅;
          all_labels ← pure (mapM (λ record : dict, dict_index record "label") result);
          vector_store ← pure (from_existing_graph factory);
          mret (Some vector_store))
         (λ e2,
            try_catch
              (vector_store ← pure (from_existing_index_basic factory);
               mret (Some vector_store))
              (λ e3, mret None))).

(** [TavilyClient(api_key=TAVILY_API_KEY) if TAVILY_API_KEY else None] *)
Definition init_tavily_client (new_client : string → TavilyClient) (TAVILY_API_KEY : string)
  : option TavilyClient :=
  if negb (String.eqb TAVILY_API_KEY "") then Some (new_client TAVILY_API_KEY) else None.

(** What [main] meets at [input()]: a line, or a keyboard interrupt. The
    end of the list is the end of standard input, where [input()] raises
    [EOFError]. *)
Inductive stdin_event : Type :=
| Line (text : string)
| KeyboardInterrupt.

(** What [main] does, in order. *)
Inductive effect : Type :=
| Print (text : string)
| Prompt (text : string)
| Ask (question : string)
| Close.

Definition banner : string := "GraphRAG Chatbot - Digita 'esci' per uscire".
Definition rule : string := "--------------------------------------------------".
Definition prompt : string := "
La tua domanda: ".
Definition answer_prefix : string := "
Risposta: ".
Definition empty_question : string := "Per favore, inserisci una domanda.".
Definition goodbye : string := "
Arrivederci!".
Definition main_error : string := "Si è verificato un errore. Controlla i log per i dettagli.".

Section Main.

(** [str.strip] and [str.lower] *)
Variable strip lower : string → string.

(** [chatbot.ask] *)
Variable chatbot_ask : string → string.

(** The [while True] loop of [main] together with the two handlers that
    end it. *)
Fixpoint repl (inputs : list stdin_event) : list effect :=
  match inputs with
  | [] => [Prompt prompt; Print main_error]
  | KeyboardInterrupt :: _ => [Prompt prompt; Print goodbye]
  | Line text :: rest =>
      let question := strip text in
      Prompt prompt ::
      if bool_decide (lower question ∈ ["esci"; "exit"; "quit"]) then []
      else if negb (String.eqb question "") then
        Ask question :: Print (answer_prefix +:+ chatbot_ask question) :: repl rest
      else Print empty_question :: repl rest
  end.

(** [main()], after the chatbot is constructed. *)
Definition main (inputs : list stdin_event) : list effect :=
  [Print banner; Print rule] ++ repl inputs ++ [Close].

End Main.

End Startup.

(** ** Vocabulary of the further statements *)

Module MorePredicates.
Import GraphNodes Chatbot Predicates MoreTools Startup.

(** The output document [web_search_tool] builds from the fields of one
    hit. *)
Definition web_doc (fields : dict) : dict :=
  {[ "content" := dict_get fields "content" (PyStr "");
     "url" := dict_get fields "url" (PyStr "");
     "title" := dict_get fields "title" (PyStr "") ]}.

(** The value is a mapping. *)
Definition is_dict (v : pyval) : Prop := ∃ d, v = PyDict d.


(** A response followed by the results of its requests, in order. *)
Definition round (execute : ToolCall → string) (m : Message) : list Message :=
  m :: ((λ tc, ToolMessage (execute tc) (id tc) None) <$> tool_calls m).

(** The history after the given responses of the model, each of them
    appended: the question, then each response followed by the results of
    its requests. *)
Definition history_of (execute : ToolCall → string) (question : string)
    (responses : list Message) : list Message :=
  HumanMessage question None :: concat (round execute <$> responses).

(** Each response is what the model answered, at its turn, to the history
    before it. *)
Definition answered_by (llm : LLM) (execute : ToolCall → string) (question : string)
    (responses : list Message) : Prop :=
  ∀ i m, responses !! i = Some m →
         llm i (history_of execute question (take i responses)) = Ok m.

(** The response requests at least one tool. *)
Definition requests_tools (m : Message) : Prop := tool_calls m ≠ [].

(** The two ways a history ends after the rounds of [front] and a last
    response [m]: [m] requests nothing and is appended, or [m] bears the
    identifier of a message of the history and has taken its place. *)
Definition ended_by (execute : ToolCall → string) (question : string)
    (front : list Message) (m : Message) (final : list Message) : Prop :=
  (terminal m ∧ fresh (history_of execute question front) m ∧
   final = history_of execute question front ++ [m]) ∨
  (∃ k old, history_of execute question front !! k = Some old ∧
            msg_id old = msg_id m ∧ msg_id m ≠ None ∧
            final = <[ k := m ]> (history_of execute question front)).

(** The shape of the history at a point of a run from [question]. *)
Definition rounds_inv (llm : LLM) (execute : ToolCall → string) (question : string)
    (c : config) : Prop :=
  ∃ responses,
    length responses = invocations c ∧
    answered_by llm execute question responses ∧
    match next c with
    | agent =>
        Forall requests_tools responses ∧
        messages c = history_of execute question responses
    | tools =>
        ∃ front m, responses = front ++ [m] ∧ Forall requests_tools front ∧
                   requests_tools m ∧
                   messages c = history_of execute question front ++ [m]
    | END =>
        ∃ front m, responses = front ++ [m] ∧ Forall requests_tools front ∧
                   ended_by execute question front m (messages c)
    end.

(** The second attempt of [init_vector_store] raises: the labels query
    raises, a record it answers has no [label], or the constructor from the
    graph raises. *)
Definition second_attempt_raises (factory : Neo4jVectorFactory) (graph : Neo4jGraph) : Prop :=
  (∃ e, query graph labels_query ∅ = Raise e) ∨
  (∃ records (r : dict), query graph labels_query ∅ = Ok records ∧
                         r ∈ records ∧ r !! "label" = None) ∨
  (∃ e, from_existing_graph factory = Raise e).

(** The questions [main] passes to [ask]. *)
Definition asked (trace : list effect) : list string :=
  omap (λ e, match e with Ask question => Some question | _ => None end) trace.

(** The line is one of the three words that end the session. *)
Definition exits (strip lower : string → string) (text : string) : Prop :=
  lower (strip text) ∈ ["esci"; "exit"; "quit"].

End MorePredicates.

(** ** The ingestion of [src/ingest.py] *)

Module Ingest.
Import MoreTools.

(** [src/schema.py]: what the extraction chain yields. An [Optional[str]]
    field is an [option string]. *)
Record Entity := {
  e_id : string;
  e_type : string;
  e_name : string;
  e_description : option string;
  e_publication_date : option string;
  e_document_type : option string;
  e_reference_number : option string }.

Record Relationship := {
  r_id : string;
  source_entity_id : string;
  target_entity_id : string;
  r_type : string;
  r_description : option string }.

Record KnowledgeGraph := {
  entities : list Entity;
  relationships : list Relationship }.

(** The graph document handed to the graph store: nodes, the edges between
    them and the source document of the chunk. *)
Record Node := { node_id : string; node_type : string; properties : dict }.

Record Edge := { source : Node; target : Node; edge_type : string; edge_properties : dict }.

Record GraphDocument := { nodes : list Node; edges : list Edge; gd_source : Document }.

(** An optional string as a Python value. *)
Definition opt_str (o : option string) : pyval :=
  match o with Some text => PyStr text | None => PyNone end.

(** The [Node(...)] built for an entity. *)
Definition node_of (chunk_id source_document : string) (entity : Entity) : Node :=
  {| node_id := e_id entity;
     node_type := e_type entity;
     properties :=
       {[ "name" := PyStr (e_name entity);
          "description" := PyStr (default "" (e_description entity));
          "publication_date" := opt_str (e_publication_date entity);
          "document_type" := opt_str (e_document_type entity);
          "reference_number" := opt_str (e_reference_number entity);
          "chunk_id" := PyStr chunk_id;
          "source_document" := PyStr source_document ]} |}.

(** [{node.id: node for node in nodes}]: a later node replaces an earlier
    one with the same id. *)
Definition node_map (nodes : list Node) : gmap string Node :=
  foldl (λ m node, <[ node_id node := node ]> m) ∅ nodes.

(** The edge for a relationship whose two ends are in the map. *)
Definition edge_of (chunk_id source_document : string) (lookup_node : gmap string Node)
    (rel : Relationship) : option Edge :=
  match lookup_node !! source_entity_id rel, lookup_node !! target_entity_id rel with
  | Some source_node, Some target_node =>
      Some {| source := source_node;
              target := target_node;
              edge_type := r_type rel;
              edge_properties :=
                {[ "description" := PyStr (default "" (r_description rel));
                   "chunk_id" := PyStr chunk_id;
                   "source_document" := PyStr source_document ]} |}
  | _, _ => None
  end.

(** [convert_to_graph_document(kg, chunk_id, source_document)]; [None] is
    what the handler returns. *)
Definition convert_to_graph_document (kg : KnowledgeGraph) (chunk_id source_document : string)
  : option GraphDocument :=
  let nodes := node_of chunk_id source_document <$> entities kg in
  let relationships :=
    omap (edge_of chunk_id source_document (node_map nodes)) (relationships kg) in
  let document :=
    {| page_content := PyStr ("Chunk " +:+ chunk_id +:+ " from " +:+ source_document);
       metadata := {[ "chunk_id" := PyStr chunk_id;
                      "source_document" := PyStr source_document ]} |} in
  Some {| nodes := nodes; edges := relationships; gd_source := document |}.

(** What the extraction chain returns: a [KnowledgeGraph] object, or
    another value: a dictionary still to be validated, or what is left of a
    reply of the model that does not parse, [None] for one. *)
Inductive extraction : Type :=
| AsObject (kg : KnowledgeGraph)
| AsValue (v : pyval).

(** [convert_to_graph_document] on what [extract_knowledge_graph] returns.
    A value that is not a [KnowledgeGraph] has no [entities]: the loop over
    them raises inside the [try] of the function, whose handler returns
    [None]. *)
Definition convert_extracted (kg : extraction) (chunk_id source_document : string)
  : option GraphDocument :=
  match kg with
  | AsObject kg => convert_to_graph_document kg chunk_id source_document
  | AsValue _ => None
  end.

(** [Document(page_content=..., metadata=...)]: the class validates its
    fields, and the text has to be a [str]. *)
Definition new_document (text : pyval) (fields : dict) : result Document :=
  match text with
  | PyStr _ => Ok {| page_content := text; metadata := fields |}
  | PyNone | PyBool _ | PyInt _ | PyList _ | PyDict _ =>
      Raise (Exception "ValidationError")
  end.

(** The services of the ingestor: the extraction chain, the validation of
    a dictionary as a [KnowledgeGraph], the graph store and the vector
    store. *)
Record GraphRAGIngestor := {
  extraction_invoke : string → result extraction;
  validate : dict → result KnowledgeGraph;
  add_graph_documents : list GraphDocument → result unit;
  add_documents : list Document → result unit;
  graph_query : string → dict → result (list dict) }.

Inductive ingest_call : Type :=
| ExtractionInvoke (text : string)
| AddGraphDocuments (docs : list GraphDocument)
| AddDocuments (docs : list Document)
| IngestQuery (cypher : string) (params : dict).

(** A method of the ingestor: it may raise, and it extends the list of
    calls placed on the services. *)
Definition I (A : Type) : Type := list ingest_call → result A * list ingest_call.

#[export] Instance I_ret : MRet I := fun A a log => (Ok a, log).
#[export] Instance I_bind : MBind I := fun A B f m log =>
  match m log with
  | (Ok a, log') => f a log'
  | (Raise e, log') => (Raise e, log')
  end.

Definition place {A} (c : ingest_call) (r : result A) : I A :=
  fun log => (r, log ++ [c]).

Definition lift {A} (r : result A) : I A := fun log => (r, log).

Definition try_ingest {A} (body : I A) (handler : exn → I A) : I A :=
  fun log =>
    match body log with
    | (Ok a, log') => (Ok a, log')
    | (Raise e, log') => handler e log'
    end.

Section Methods.

Variable self : GraphRAGIngestor.

(** [extract_knowledge_graph(text)]: a dictionary is validated into a
    [KnowledgeGraph]; any other reply is returned as it is. *)
Definition extract_knowledge_graph (text : string) : I extraction :=
  try_ingest
    (result ← place (ExtractionInvoke text) (extraction_invoke self text);
     match result with
     | AsValue (PyDict d) => kg ← lift (validate self d); mret (AsObject kg)
     | AsObject _ | AsValue _ => mret result
     end)
    (λ e, mret (AsObject {| entities := []; relationships := [] |})).

(** [store_graph_and_embeddings(graph_document)]: the documents to embed
    are built first, inside the [try]. *)
Definition store_graph_and_embeddings (graph_document : option GraphDocument) : I unit :=
  try_ingest
    (match graph_document with
     | None => mret ()
     | Some gd =>
         documents_to_embed ←
           lift (mapM (λ node, new_document
                                 (dict_get (properties node) "description" (PyStr ""))
                                 (properties node))
                   (filter (λ node, truthy (dict_get (properties node) "description" PyNone)
                                    = true)
                      (nodes gd)));
         _ ← place (AddGraphDocuments [gd]) (add_graph_documents self [gd]);
         match documents_to_embed with
         | [] => mret ()
         | _ :: _ => place (AddDocuments documents_to_embed)
                           (add_documents self documents_to_embed)
         end
     end)
    (λ e, mret ()).

(** [process_chunk(chunk_data, source_document)], for a chunk as
    [chunk_by_pages] produces it: a dictionary of strings. *)
Definition process_chunk (chunk_data : gmap string string) (source_document : string)
  : I unit :=
  let chunk_id := default "" (chunk_data !! "id") in
  let text := default "" (chunk_data !! "testo") in
  if String.eqb text "" then mret ()
  else
    kg ← extract_knowledge_graph text;
    let graph_document := convert_extracted kg chunk_id source_document in
    store_graph_and_embeddings graph_document.

Definition processed_query : string := "
                MATCH (n:Entity {source_document: $source_document})
                RETURN count(n) as count
            ".

(** [count > 0] *)
Definition positive (count : pyval) : result bool :=
  match count with
  | PyInt z => Ok (Z.ltb 0 z)
  | PyBool b => Ok b
  | PyNone | PyStr _ | PyList _ | PyDict _ => Raise (Exception "TypeError")
  end.

(** [document_already_processed(source_document)] *)
Definition document_already_processed (source_document : string) : I bool :=
  try_ingest
    (result ← place (IngestQuery processed_query {[ "source_document" := PyStr source_document ]})
                    (graph_query self processed_query
                       {[ "source_document" := PyStr source_document ]});
     first ← lift (match result with
                   | record :: _ => Ok record
                   | [] => Raise (Exception "IndexError")
                   end);
     count ← lift (dict_index first "count");
     lift (positive count))
    (λ e, mret false).

End Methods.

(** Run a method from an empty call log. *)
Definition ingest_run {A} (m : I A) : result A * list ingest_call := m [].

(** The two ends of a relationship are ids of entities of the graph. *)
Definition linked (kg : KnowledgeGraph) (rel : Relationship) : Prop :=
  source_entity_id rel ∈ (e_id <$> entities kg) ∧
  target_entity_id rel ∈ (e_id <$> entities kg).

#[export] Instance linked_dec kg rel : Decision (linked kg rel).
Proof. unfold linked. apply _. Defined.

(** The last node of [nodes] with the id of [node] is [node]. *)
Definition last_with_id (nodes : list Node) (node : Node) : Prop :=
  ∃ before after, nodes = before ++ node :: after ∧
                  node_id node ∉ (node_id <$> after).

(** The node has a description worth embedding. *)
Definition described (node : Node) : Prop :=
  truthy (dict_get (properties node) "description" PyNone) = true.

#[export] Instance described_dec node : Decision (described node).
Proof. unfold described. apply _. Defined.

(** The extraction of a text fails: the chain raises, or it returns a
    dictionary that does not validate. *)
Definition extraction_fails (self : GraphRAGIngestor) (text : string) : Prop :=
  (∃ e, extraction_invoke self text = Raise e) ∨
  (∃ d e, extraction_invoke self text = Ok (AsValue (PyDict d)) ∧
          validate self d = Raise e).

(** What [extract_knowledge_graph] returns for a text. *)
Definition extracted (self : GraphRAGIngestor) (text : string) : extraction :=
  match extraction_invoke self text with
  | Ok (AsValue (PyDict d)) =>
      match validate self d with
      | Ok kg => AsObject kg
      | Raise _ => AsObject {| entities := []; relationships := [] |}
      end
  | Ok reply => reply
  | Raise _ => AsObject {| entities := []; relationships := [] |}
  end.

(** The value is a [str]. *)
Definition is_str (v : pyval) : Prop := ∃ text, v = PyStr text.

(** The description of every node that has one is a [str]. *)
Definition embeddable (gd : GraphDocument) : Prop :=
  ∀ node, node ∈ nodes gd → described node →
          is_str (dict_get (properties node) "description" (PyStr "")).

(** The document embedded for a node: its description, with the node's
    properties as metadata. *)
Definition embedding_of (node : Node) : Document :=
  {| page_content := dict_get (properties node) "description" (PyStr "");
     metadata := properties node |}.

(** A relationship by its ends and type, and an edge likewise. *)
Definition rel_key (rel : Relationship) : string * string * string :=
  (source_entity_id rel, target_entity_id rel, r_type rel).
Definition edge_key (edge : Edge) : string * string * string :=
  (node_id (source edge), node_id (target edge), edge_type edge).

(** The node and the edge carry the chunk and the document they come
    from. *)
Definition stamped (chunk_id source_document : string) (props : dict) : Prop :=
  props !! "chunk_id" = Some (PyStr chunk_id) ∧
  props !! "source_document" = Some (PyStr source_document).

End Ingest.

(** * Properties of the tools *)

Module GraphNodesSpec.
Import GraphNodes Predicates Mocks.

Ltac unfold_M :=
  cbv [run returned calls_of mbind mret M_bind M_ret try_catch perform pure raise
       call_grader call_graph call_chain].

(** ** The unit tests of [tests/test_graph_nodes.py] and
    [tests/test_new_tools.py], run on the model *)

Example test_hybrid_search_tool_success :
  returned (hybrid_search_tool
              (Some (vector_store_returning
                       [ {| page_content := PyStr "Test content";
                            metadata := {[ "source" := PyStr "test" ]} |} ]))
              None "Test question")
  = Ok [ {[ "content" := PyStr "Test content";
            "metadata" := PyDict {[ "source" := PyStr "test" ]} ]} ].
Proof. reflexivity. Qed.

Example test_hybrid_search_tool_error_handling :
  run (hybrid_search_tool (Some vector_store_raising) None "Test question")
  = (Ok [], [SimilaritySearch "Test question" 3]).
Proof. reflexivity. Qed.

Example test_structured_query_tool_success :
  returned (structured_query_tool (Some (chain_returning chain_answer)) None "Test question")
  = Ok [ {[ "question" := PyStr "Test question"; "result" := chain_answer ]} ].
Proof. reflexivity. Qed.

Example test_structured_query_tool_fallback :
  returned (structured_query_tool (Some chain_raising)
              (Some (graph_returning [entity_record])) "Test question")
  = Ok [entity_record].
Proof. reflexivity. Qed.

Example structured_query_tool_total_failure :
  run (structured_query_tool None (Some graph_raising) "Test question")
  = (Ok [], [GraphQuery fallback_query {[ "query" := PyStr "Test question" ]}]).
Proof. reflexivity. Qed.

Example test_web_search_tool_success :
  returned (web_search_tool
              (Some (tavily_returning
                       {[ "results" :=
                            PyList [ PyDict {[ "content" := PyStr "Test result";
                                               "url" := PyStr "http://test.com";
                                               "title" := PyStr "Test" ]} ] ]}))
              "Test question")
  = Ok [ {[ "content" := PyStr "Test result"; "url" := PyStr "http://test.com";
            "title" := PyStr "Test" ]} ].
Proof. vm_compute. reflexivity. Qed.

Example test_web_search_tool_error_handling :
  run (web_search_tool (Some tavily_raising) "Test question")
  = (Ok [], [TavilySearch "Test question" 3 "advanced"]).
Proof. reflexivity. Qed.

Example test_rewrite_query_tool_invoke :
  returned (rewrite_query_tool "What are the rules?"
              (Some (rewriter_returning "Rewritten question about privacy regulations")))
  = Ok "Rewritten question about privacy regulations".
Proof. reflexivity. Qed.

Example test_grade_documents_tool_invoke :
  returned (grade_documents_tool [ {[ "content" := PyStr "Relevant document about privacy" ]} ]
              "Privacy question" (Some (grader_says "yes")))
  = Ok [ {[ "content" := PyStr "Relevant document about privacy" ]} ].
Proof. reflexivity. Qed.

Example grade_documents_tool_grader_raises :
  returned (grade_documents_tool [ {[ "content" := PyStr "a" ]}; {[ "title" := PyStr "b" ]} ]
              "q" (Some grader_raises))
  = Ok [ {[ "content" := PyStr "a" ]} ].
Proof. reflexivity. Qed.

Example test_grade_answer_tool_invoke :
  returned (grade_answer_tool "Test answer" [ {[ "content" := PyStr "Test document" ]} ]
              "Test question" (Some (grader_says "yes")) (Some (grader_says "yes")))
  = Ok "utile".
Proof. reflexivity. Qed.

(** A document text that is not a string makes the join of the context
    raise before any grader is asked; the handler answers "utile". *)
Example grade_answer_tool_context_error :
  run (grade_answer_tool "Test answer"
         [ {[ "content" := PyStr "a" ]}; {[ "content" := PyInt 3 ]} ]
         "Test question" (Some (grader_says "no")) (Some (grader_says "no")))
  = (Ok "utile", []).
Proof. reflexivity. Qed.

(** ** Retrieval without a backend *)

(** C2: with its backend missing (no vector store; neither chain nor graph;
    no search client) a retrieval tool returns the empty list for every
    query, raises nothing and places no call. *)
Theorem retrieval_tools_fail_open (q : string) (graph : option Neo4jGraph) :
  run (hybrid_search_tool None graph q) = (Ok [], []) ∧
  run (structured_query_tool None None q) = (Ok [], []) ∧
  run (web_search_tool None q) = (Ok [], []).
Proof. by repeat split. Qed.

(** ** Grading documents *)

Lemma grader_input_document question d :
  grader_input question d !! "document" = Some (doc_text d).
Proof.
  unfold grader_input. rewrite lookup_insert_ne by done. apply lookup_singleton_eq.
Qed.

Lemma keeps_spec g question d :
  keeps g question d = true ↔ graded_pertinent g question d ∨ grading_raises g question d.
Proof.
  unfold keeps, graded_pertinent, grading_raises, has_text.
  destruct (truthy (doc_text d)); simpl.
  - destruct (grader_invoke g (grader_input question d)) as [grade|e]; simpl.
    + rewrite String.eqb_eq. split.
      * intros Hyes. left. eauto.
      * intros [(_ & grade' & [= <-] & Hyes)|(_ & e & [=])]. exact Hyes.
    + split; [|done]. intros _. right. eauto.
  - split; [done|]. intros [[[=] _]|[[=] _]].
Qed.

(** The loop of [grade_documents_tool], from any accumulator and call log. *)
Lemma grade_loop g question docs : ∀ acc log,
  for_each docs (grade_document g question) acc log =
    (Ok (acc ++ filter (λ d, keeps g question d = true) docs),
     log ++ ((GraderInvoke ∘ grader_input question) <$> filter has_text docs)).
Proof.
  induction docs as [|d docs IH]; intros acc log.
  - by rewrite !app_nil_r.
  - cbn [for_each]. unfold mbind at 1, M_bind.
    assert (grade_document g question acc d log =
            (Ok (acc ++ (if keeps g question d then [d] else [])),
             log ++ (if truthy (doc_text d) then [GraderInvoke (grader_input question d)] else [])))
      as ->.
    { unfold grade_document, keeps, grader_input. unfold_M.
      destruct (truthy (doc_text d)); simpl; [|by rewrite !app_nil_r].
      destruct (grader_invoke g _) as [grade|e]; simpl; [|done].
      destruct (String.eqb (binary_score grade) "yes"); by rewrite ?app_nil_r. }
    rewrite IH. unfold has_text. f_equal.
    + rewrite filter_cons. destruct (keeps g question d); simpl.
      * by rewrite <- app_assoc.
      * by rewrite app_nil_r.
    + rewrite filter_cons. destruct (truthy (doc_text d)); simpl.
      * by rewrite <- app_assoc.
      * by rewrite app_nil_r.
Qed.

Lemma grade_documents_run g question docs :
  run (grade_documents_tool docs question (Some g)) =
    (Ok (filter (λ d, keeps g question d = true) docs),
     (GraderInvoke ∘ grader_input question) <$> filter has_text docs).
Proof.
  destruct docs as [|d docs]; [done|].
  unfold grade_documents_tool, run, try_catch. by rewrite grade_loop.
Qed.

(** C6: with a grader, [grade_documents_tool] returns the sublist of the
    documents that were graded ['yes'] or whose grading raised, so a
    document whose grading raises is kept; without a grader it returns the
    list it was given. *)
Theorem grade_documents_filters (documents : list dict) (question : string) (g : Grader) :
  (∃ kept,
      returned (grade_documents_tool documents question (Some g)) = Ok kept ∧
      kept `sublist_of` documents ∧
      (∀ d, d ∈ kept ↔
            d ∈ documents ∧ (graded_pertinent g question d ∨ grading_raises g question d)) ∧
      (∀ d, d ∈ documents → grading_raises g question d → d ∈ kept)) ∧
  run (grade_documents_tool documents question None) = (Ok documents, []).
Proof.
  split; [|done].
  exists (filter (λ d, keeps g question d = true) documents).
  unfold returned. rewrite grade_documents_run. split_and!.
  - done.
  - apply sublist_filter.
  - intros d. rewrite list_elem_of_filter, keeps_spec. tauto.
  - intros d Hd Hr. rewrite list_elem_of_filter, keeps_spec. tauto.
Qed.

Lemma grade_documents_filters_witness :
  let poisoned : dict := {[ "page_content" := PyStr "b" ]} in
  let documents : list dict :=
    [ {[ "content" := PyStr "a" ]}; {[ "content" := PyStr "" ]}; poisoned;
      {[ "content" := PyStr "c" ]} ] in
  grading_raises (grader_on "a" "b") "q" poisoned ∧
  ∃ kept, returned (grade_documents_tool documents "q" (Some (grader_on "a" "b"))) = Ok kept ∧
          poisoned ∈ kept.
Proof.
  intros poisoned documents.
  assert (grading_raises (grader_on "a" "b") "q" poisoned) as Hraises.
  { split; [reflexivity|]. by exists (Exception "Exception"). }
  split; [exact Hraises|].
  destruct (grade_documents_filters documents "q" (grader_on "a" "b"))
    as [(kept & Hkept & _ & _ & Hfail_open) _].
  exists kept. split; [exact Hkept|].
  apply Hfail_open; [|exact Hraises].
  do 2 apply list_elem_of_further. apply list_elem_of_here.
Defined.

(** C10: with a grader, a document without text under [content] and
    [page_content] is not submitted to the grader and is not in the
    output; the grader is asked exactly about the documents with text, in
    order. *)
Theorem grade_documents_drops_empty (documents : list dict) (question : string)
    (g : Grader) (d : dict) :
  truthy (doc_text d) = false →
  (∀ kept, returned (grade_documents_tool documents question (Some g)) = Ok kept → d ∉ kept) ∧
  (GraderInvoke (grader_input question d)
     ∉ calls_of (grade_documents_tool documents question (Some g))) ∧
  calls_of (grade_documents_tool documents question (Some g)) =
    ((GraderInvoke ∘ grader_input question) <$> filter has_text documents).
Proof.
  intros Hempty. unfold returned, calls_of. rewrite grade_documents_run. simpl.
  split_and!.
  - intros kept [= <-]. rewrite list_elem_of_filter. unfold keeps.
    rewrite Hempty. intros [[=] _].
  - rewrite list_elem_of_fmap. intros (d' & Heq & Hin).
    apply list_elem_of_filter in Hin as [Htext _]. unfold has_text in Htext.
    assert (grader_input question d = grader_input question d') as Heq'
      by (cbn [compose] in Heq; congruence).
    pose proof (grader_input_document question d) as Hd.
    rewrite Heq', grader_input_document in Hd. congruence.
  - done.
Qed.

Lemma grade_documents_drops_empty_witness :
  let docs : list dict := [ {[ "content" := PyStr "" ]}; {[ "content" := PyStr "a" ]} ] in
  truthy (doc_text {[ "content" := PyStr "" ]}) = false ∧
  returned (grade_documents_tool docs "q" (Some (grader_says "yes")))
    = Ok [ {[ "content" := PyStr "a" ]} ] ∧
  ({[ "content" := PyStr "" ]} : dict) ∉ ([ {[ "content" := PyStr "a" ]} ] : list dict).
Proof.
  assert (truthy (doc_text {[ "content" := PyStr "" ]}) = false) as Hempty
    by (vm_compute; reflexivity).
  split; [exact Hempty|]. split; [vm_compute; reflexivity|].
  apply (proj1 (grade_documents_drops_empty
                  [ {[ "content" := PyStr "" ]}; {[ "content" := PyStr "a" ]} ] "q"
                  (grader_says "yes") {[ "content" := PyStr "" ]} Hempty)).
  vm_compute; reflexivity.
Defined.

(** ** Grading an answer *)

(** C4: the verdicts of [grade_answer_tool]. Hallucination verdict ['no']
    gives "non supportato" and the usefulness grader is not asked at all;
    hallucination ['yes'] with usefulness ['no'] gives "non utile"; both
    ['yes'] give "utile"; with either grader missing the answer is "utile"
    and no grader is asked. *)
Theorem grade_answer_taxonomy (generation : string) (documents : list dict)
    (question : string) (hg ug : Grader) (context : string) :
  (doc_context documents = Ok context →
   (∀ h, grader_invoke hg (hallucination_input context generation) = Ok h →
         binary_score h = "no" →
         run (grade_answer_tool generation documents question (Some hg) (Some ug)) =
           (Ok "non supportato", [GraderInvoke (hallucination_input context generation)])) ∧
   (∀ h u, grader_invoke hg (hallucination_input context generation) = Ok h →
           binary_score h = "yes" →
           grader_invoke ug (usefulness_input question generation) = Ok u →
           (binary_score u = "no" →
            returned (grade_answer_tool generation documents question (Some hg) (Some ug)) =
              Ok "non utile") ∧
           (binary_score u = "yes" →
            returned (grade_answer_tool generation documents question (Some hg) (Some ug)) =
              Ok "utile"))) ∧
  run (grade_answer_tool generation documents question None (Some ug)) = (Ok "utile", []) ∧
  run (grade_answer_tool generation documents question (Some hg) None) = (Ok "utile", []) ∧
  run (grade_answer_tool generation documents question None None) = (Ok "utile", []).
Proof.
  split; [|done]. intros Hctx. split.
  - intros h Hh Hno. unfold grade_answer_tool. unfold_M.
    rewrite Hctx. fold (hallucination_input context generation). rewrite Hh, Hno. done.
  - intros h u Hh Hyes Hu. unfold grade_answer_tool. unfold_M.
    rewrite Hctx. fold (hallucination_input context generation)
                       (usefulness_input question generation).
    rewrite Hh, Hyes, Hu. split; intros ->; done.
Qed.

Lemma grade_answer_taxonomy_witness :
  doc_context [ {[ "content" := PyStr "Test document" ]} ] = Ok "Test document" ∧
  returned (grade_answer_tool "Test answer" [ {[ "content" := PyStr "Test document" ]} ]
              "Test question" (Some (grader_says "no")) (Some (grader_says "yes")))
    = Ok "non supportato".
Proof.
  assert (doc_context [ {[ "content" := PyStr "Test document" ]} ] = Ok "Test document")
    as Hctx by (vm_compute; reflexivity).
  split; [exact Hctx|].
  pose proof (grade_answer_taxonomy "Test answer" [ {[ "content" := PyStr "Test document" ]} ]
                "Test question" (grader_says "no") (grader_says "yes") "Test document")
    as [Hgraded _].
  destruct (Hgraded Hctx) as [Hunsupported _].
  unfold returned. by rewrite (Hunsupported {| binary_score := "no" |} eq_refl eq_refl).
Defined.

(** ** Hybrid search *)

Lemma enhance_run graph doc log :
  enhance graph doc log = (Ok (enriched graph doc), log ++ enrichment_calls graph doc).
Proof.
  unfold enhance, enriched, related_context, enrichment_calls.
  fold (doc_id_of doc) (base_doc doc).
  destruct graph as [g|]; unfold_M; [|by rewrite app_nil_r].
  destruct (truthy (doc_id_of doc)); [|by rewrite app_nil_r].
  by destruct (query g related_query _) as [[|first rest]|e].
Qed.

Lemma enhance_loop graph docs : ∀ acc log,
  for_each docs (λ acc doc, enhanced_doc ← enhance graph doc; mret (acc ++ [enhanced_doc]))
    acc log =
  (Ok (acc ++ (enriched graph <$> docs)), log ++ concat (enrichment_calls graph <$> docs)).
Proof.
  induction docs as [|doc docs IH]; intros acc log; cbn [for_each fmap list_fmap concat].
  - by rewrite !app_nil_r.
  - unfold mbind at 1, M_bind. unfold mbind at 1, M_bind. rewrite enhance_run.
    unfold mret at 1, M_ret. rewrite IH. by rewrite <- !app_assoc.
Qed.

Lemma hybrid_search_run vs graph q matches :
  similarity_search vs q 3 = Ok matches →
  run (hybrid_search_tool (Some vs) graph q) =
    (Ok (enriched graph <$> matches),
     SimilaritySearch q 3 :: concat (enrichment_calls graph <$> matches)).
Proof.
  intros Hsearch. unfold hybrid_search_tool, run, try_catch, perform.
  unfold mbind at 1, M_bind. rewrite Hsearch.
  unfold mbind at 1, M_bind. by rewrite enhance_loop.
Qed.

Lemma enriched_fields graph doc :
  enriched graph doc !! "content" = Some (page_content doc) ∧
  enriched graph doc !! "metadata" = Some (PyDict (metadata doc)) ∧
  enriched graph doc !! "related_context" = related_context graph doc.
Proof.
  unfold enriched, base_doc.
  destruct (related_context graph doc) as [context|]; by simplify_map_eq.
Qed.

(** C5: with a vector store, [hybrid_search_tool] asks it for [k = 3]
    matches and returns one document for each match it answers, in order,
    with the match's content and metadata; with a graph, a match that has an
    identifier gets as [related_context] the first record the graph answers
    for it; when that query raises the base document is returned all the
    same; an index answering one match with metadata [{"id": "doc1"}] and a
    graph answering one record give exactly one document, whose
    [related_context] is that record. *)
Theorem hybrid_search_enriches (vs : VectorStore) (graph : option Neo4jGraph)
    (q : string) (matches : list Document) :
  similarity_search vs q 3 = Ok matches →
  ∃ docs,
    returned (hybrid_search_tool (Some vs) graph q) = Ok docs ∧
    head (calls_of (hybrid_search_tool (Some vs) graph q)) = Some (SimilaritySearch q 3) ∧
    length docs = length matches ∧
    (length matches ≤ 3 → length docs ≤ 3) ∧
    Forall2 (λ m d, d !! "content" = Some (page_content m) ∧
                    d !! "metadata" = Some (PyDict (metadata m)) ∧
                    d !! "related_context" = related_context graph m) matches docs ∧
    (∀ g m first rest, graph = Some g → m ∈ matches → truthy (doc_id_of m) = true →
       query g related_query {[ "doc_id" := doc_id_of m ]} = Ok (first :: rest) →
       <[ "related_context" := PyDict first ]> (base_doc m) ∈ docs) ∧
    (∀ g m e, graph = Some g → m ∈ matches →
       query g related_query {[ "doc_id" := doc_id_of m ]} = Raise e →
       base_doc m ∈ docs) ∧
    (∀ g text record, graph = Some g →
       matches = [ {| page_content := text; metadata := {[ "id" := PyStr "doc1" ]} |} ] →
       query g related_query {[ "doc_id" := PyStr "doc1" ]} = Ok [record] →
       ∃ d, docs = [d] ∧ d !! "related_context" = Some (PyDict record)).
Proof.
  intros Hsearch. exists (enriched graph <$> matches).
  unfold returned, calls_of. rewrite (hybrid_search_run _ _ _ _ Hsearch). simpl.
  split_and!; try done.
  - by rewrite length_fmap.
  - by rewrite length_fmap.
  - apply Forall2_fmap_r, Forall_Forall2_diag, Forall_forall.
    intros m _. apply enriched_fields.
  - intros g m first rest -> Hin Hid Hquery. apply list_elem_of_fmap.
    exists m. split; [|done]. unfold enriched, related_context. by rewrite Hid, Hquery.
  - intros g m e -> Hin Hquery. apply list_elem_of_fmap.
    exists m. split; [|done]. unfold enriched, related_context. rewrite Hquery.
    by destruct (truthy (doc_id_of m)).
  - intros g text record -> -> Hquery. eexists. split; [reflexivity|].
    rewrite (proj2 (proj2 (enriched_fields _ _))).
    unfold related_context.
    change (doc_id_of {| page_content := text; metadata := {[ "id" := PyStr "doc1" ]} |})
      with (PyStr "doc1").
    by rewrite Hquery.
Qed.

Lemma hybrid_search_enriches_witness :
  similarity_search (vector_store_returning [doc1]) "Test question" 3 = Ok [doc1] ∧
  ∃ d, returned (hybrid_search_tool (Some (vector_store_returning [doc1]))
                  (Some (graph_returning [related_record])) "Test question") = Ok [d] ∧
       d !! "related_context" = Some (PyDict related_record).
Proof.
  split; [reflexivity|].
  destruct (hybrid_search_enriches (vector_store_returning [doc1])
              (Some (graph_returning [related_record])) "Test question" [doc1] eq_refl)
    as (docs & Hdocs & _ & _ & _ & _ & _ & _ & Hscenario).
  destruct (Hscenario (graph_returning [related_record]) (PyStr "Test content")
              related_record eq_refl eq_refl eq_refl) as (d & -> & Hcontext).
  exists d. by split.
Defined.

(** ** Structured query *)

Lemma structured_query_primary c graph q answer :
  chain_invoke c {[ "query" := PyStr q ]} = Ok answer →
  run (structured_query_tool (Some c) graph q) =
    (Ok [ {[ "question" := PyStr q; "result" := answer ]} ],
     [ChainInvoke {[ "query" := PyStr q ]}]).
Proof.
  intros Hanswer. unfold structured_query_tool, run, try_catch.
  unfold mbind, M_bind, call_chain, perform. rewrite Hanswer. by destruct graph.
Qed.

Lemma structured_query_fallback chain g q :
  primary_raises chain q →
  ∃ log,
    run (structured_query_tool chain (Some g) q) =
      (match query g fallback_query {[ "query" := PyStr q ]} with
       | Ok records => Ok records
       | Raise _ => Ok []
       end,
       log ++ [GraphQuery fallback_query {[ "query" := PyStr q ]}]).
Proof.
  destruct chain as [c|]; simpl.
  - intros [e He]. exists [ChainInvoke {[ "query" := PyStr q ]}].
    unfold structured_query_tool. unfold_M. rewrite He.
    by destruct (query g fallback_query _).
  - intros _. exists []. unfold structured_query_tool. unfold_M.
    by destruct (query g fallback_query _).
Qed.

Lemma structured_query_no_graph chain q :
  primary_raises chain q →
  returned (structured_query_tool chain None q) = Ok [].
Proof.
  destruct chain as [c|]; simpl; [|done].
  intros [e He]. unfold structured_query_tool. unfold_M. by rewrite He.
Qed.

(** C3, on the repository's own test input for the primary path: the chain
    answers a mapping, and the one record returned holds that mapping under
    [result], so it is not flat. *)
Lemma structured_query_nested_result :
  ∃ record,
    returned (structured_query_tool (Some (chain_returning chain_answer)) None "Test question")
      = Ok [record] ∧
    ¬ flat record.
Proof.
  eexists. split; [reflexivity|].
  intros Hflat. by apply (Hflat "result" {[ "result" := PyStr "Test result" ]}).
Qed.

(** The tool itself does not cut the fallback answer: six records answered
    are six records returned. *)
Lemma structured_query_fallback_uncapped :
  returned (structured_query_tool (Some chain_raising)
              (Some (graph_returning (replicate 6 entity_record))) "Test question")
    = Ok (replicate 6 entity_record).
Proof. reflexivity. Qed.

(** C3 (amended): [structured_query_tool] never raises and returns a list
    of records. When the chain answers, the list is the one record
    [{question, result}] that holds the chain's whole answer under [result].
    When the primary path raises and there is a graph, the tool places the
    fallback query (substring match on name or description, [LIMIT 5] in
    its text) and returns the records the graph answers, unmodified, so one
    record answered is exactly that record returned, and the result is flat
    and at most five long whenever the graph's answer is. When the fallback
    query raises too, or there is no graph, the result is the empty list. *)
Theorem structured_query_records (chain : option GraphCypherQAChain)
    (graph : option Neo4jGraph) (q : string) :
  (∃ records, returned (structured_query_tool chain graph q) = Ok records) ∧
  (∀ c answer, chain = Some c → chain_invoke c {[ "query" := PyStr q ]} = Ok answer →
     returned (structured_query_tool chain graph q) =
       Ok [ {[ "question" := PyStr q; "result" := answer ]} ]) ∧
  (∀ g records, graph = Some g → primary_raises chain q →
     query g fallback_query {[ "query" := PyStr q ]} = Ok records →
     returned (structured_query_tool chain graph q) = Ok records ∧
     last (calls_of (structured_query_tool chain graph q)) =
       Some (GraphQuery fallback_query {[ "query" := PyStr q ]}) ∧
     (Forall flat records → length records ≤ 5 →
      ∀ result, returned (structured_query_tool chain graph q) = Ok result →
                Forall flat result ∧ length result ≤ 5)) ∧
  (∀ g e, graph = Some g → primary_raises chain q →
     query g fallback_query {[ "query" := PyStr q ]} = Raise e →
     returned (structured_query_tool chain graph q) = Ok []) ∧
  (graph = None → primary_raises chain q →
     returned (structured_query_tool chain graph q) = Ok []).
Proof.
  split_and!.
  - destruct chain as [c|] eqn:Hchain.
    + destruct (chain_invoke c {[ "query" := PyStr q ]}) as [answer|e] eqn:Hinvoke.
      * eexists. unfold returned. by rewrite (structured_query_primary _ _ _ _ Hinvoke).
      * assert (primary_raises (Some c) q) as Hraises by (by exists e).
        destruct graph as [g|].
        -- destruct (structured_query_fallback _ g q Hraises) as (log & Hrun).
           unfold returned. rewrite Hrun.
           destruct (query g fallback_query _); by eexists.
        -- eexists. by apply structured_query_no_graph.
    + destruct graph as [g|]; [|by eexists].
      destruct (structured_query_fallback None g q I) as (log & Hrun).
      unfold returned. rewrite Hrun. destruct (query g fallback_query _); by eexists.
  - intros c answer -> Hanswer. unfold returned.
    by rewrite (structured_query_primary _ _ _ _ Hanswer).
  - intros g records -> Hraises Hquery.
    destruct (structured_query_fallback _ g q Hraises) as (log & Hrun).
    unfold returned, calls_of. rewrite Hrun, Hquery. simpl.
    split_and!; [done|by rewrite last_snoc|].
    by intros Hflat Hlen result [= <-].
  - intros g e -> Hraises Hquery.
    destruct (structured_query_fallback _ g q Hraises) as (log & Hrun).
    unfold returned. by rewrite Hrun, Hquery.
  - intros -> Hraises. by apply structured_query_no_graph.
Qed.

Lemma structured_query_records_witness :
  primary_raises (Some chain_raising) "Test question" ∧
  query (graph_returning [entity_record]) fallback_query
    {[ "query" := PyStr "Test question" ]} = Ok [entity_record] ∧
  returned (structured_query_tool (Some chain_raising)
              (Some (graph_returning [entity_record])) "Test question")
    = Ok [entity_record].
Proof.
  assert (primary_raises (Some chain_raising) "Test question") as Hraises
    by (by exists (Exception "Exception")).
  split; [exact Hraises|]. split; [reflexivity|].
  apply (proj1 (proj2 (proj2 (structured_query_records (Some chain_raising)
           (Some (graph_returning [entity_record])) "Test question")))
         (graph_returning [entity_record]) [entity_record] eq_refl Hraises eq_refl).
Defined.

End GraphNodesSpec.

(** * Properties of the agent loop and of [ask] *)

Module ChatbotSpec.
Import Chatbot Predicates Mocks MorePredicates.

(** ** The reducer *)

Lemma index_by_id_Some merged i k :
  index_by_id merged i = Some k → ∃ old, merged !! k = Some old ∧ msg_id old = Some i.
Proof.
  revert k. induction merged as [|m rest IH]; intros k; simpl; [done|].
  destruct (index_by_id rest i) as [k'|].
  - intros [= <-]. by apply IH.
  - destruct (decide (msg_id m = Some i)); [|done]. intros [= <-]. by exists m.
Qed.

Lemma index_by_id_None merged i :
  index_by_id merged i = None ↔ ∀ old, old ∈ merged → msg_id old ≠ Some i.
Proof.
  induction merged as [|m rest IH]; simpl.
  - split; [|done]. intros _ old Hold. by apply elem_of_nil in Hold.
  - destruct (index_by_id rest i) as [k|].
    + split; [done|]. intros Hall. exfalso.
      enough (Some k = None) by done. apply IH.
      intros old Hold. apply Hall. by apply list_elem_of_further.
    + destruct (decide (msg_id m = Some i)) as [Hm|Hm].
      * split; [done|]. intros Hall. exfalso. apply (Hall m); [apply list_elem_of_here|done].
      * split; [|done]. intros _ old Hold.
        apply elem_of_cons in Hold as [->|Hold]; [done|]. by apply IH.
Qed.

(** A message either is new to the history and is appended, or takes the
    place of the message that bears its identifier. *)
Lemma add_message_cases history m :
  (fresh history m ∧ add_message history m = history ++ [m]) ∨
  (∃ k old, history !! k = Some old ∧ msg_id old = msg_id m ∧ msg_id m ≠ None ∧
            add_message history m = <[ k := m ]> history).
Proof.
  unfold add_message, fresh. destruct (msg_id m) as [i|] eqn:Hid.
  - destruct (index_by_id history i) as [k|] eqn:Hk.
    + right. destruct (index_by_id_Some _ _ _ Hk) as (old & Hold & Hi). by exists k, old.
    + left. split; [|done]. intros i' old [= <-] Hold.
      by apply (index_by_id_None history i).
  - left. by split.
Qed.

Lemma add_message_fresh history m :
  fresh history m → add_message history m = history ++ [m].
Proof.
  intros Hfresh. destruct (add_message_cases history m) as [[_ ->]|Hreplace]; [done|].
  destruct Hreplace as (k & old & Hk & Hold & Hid & _). exfalso.
  destruct (msg_id m) as [i|] eqn:Hm; [|done].
  apply (Hfresh i old); [done| |done]. by apply list_elem_of_lookup_2 in Hk.
Qed.

Lemma add_messages_new left right :
  Forall (λ m, msg_id m = None) right → add_messages left right = left ++ right.
Proof.
  unfold add_messages. revert left.
  induction right as [|m right IH]; intros left Hnew; simpl; [by rewrite app_nil_r|].
  apply Forall_cons in Hnew as [Hm Hnew]. rewrite IH by done.
  unfold add_message. rewrite Hm. by rewrite <- app_assoc.
Qed.

Lemma results_new (execute : ToolCall → string) requests :
  Forall (λ m, msg_id m = None) ((λ tc, ToolMessage (execute tc) (id tc) None) <$> requests).
Proof. apply Forall_fmap, Forall_true. done. Qed.

Lemma tool_calls_nonempty m :
  tool_calls m ≠ [] → ∃ text requests mid, m = AIMessage text requests mid ∧ requests ≠ [].
Proof. destruct m as [c mid|c requests mid|c i mid]; simpl; [done|eauto 6|done]. Qed.

Lemma tools_condition_snoc history m :
  tools_condition (history ++ [m]) = match tool_calls m with [] => END | _ :: _ => tools end.
Proof. unfold tools_condition. by rewrite last_snoc. Qed.


(** The results of a non-empty list of requests leave the history waiting
    for the model. *)
Lemma awaits_model_results (execute : ToolCall → string) history requests :
  requests ≠ [] →
  awaits_model (history ++ ((λ tc, ToolMessage (execute tc) (id tc) None) <$> requests)).
Proof.
  intros Hreq. destruct (last requests) as [tc|] eqn:Hlast.
  - exists (ToolMessage (execute tc) (id tc) None). split; [|done].
    by rewrite last_app, fmap_last, Hlast.
  - apply last_None in Hlast. done.
Qed.

(** A response that takes the place of a message of such a history ends
    the run: the last message stays what it was. *)
Lemma awaits_model_insert history k old m :
  awaits_model history → history !! k = Some old → msg_id old ≠ None →
  tools_condition (<[ k := m ]> history) = END.
Proof.
  intros (lst & Hlast & Hcalls & Hid) Hk Hold. unfold tools_condition.
  rewrite last_lookup in Hlast. rewrite last_lookup, length_insert.
  destruct (decide (k = pred (length history))) as [->|Hne].
  - rewrite Hk in Hlast. injection Hlast as ->. done.
  - rewrite list_lookup_insert_ne by done. by rewrite Hlast, Hcalls.
Qed.

Section Loop.

Variable llm : LLM.
Variable execute : ToolCall → string.

(** *** The two steps *)

Lemma agent_step c c' :
  next c = agent → superstep llm execute c = Ok c' →
  ∃ response,
    llm (invocations c) (messages c) = Ok response ∧
    messages c' = add_message (messages c) response ∧
    next c' = tools_condition (messages c') ∧
    invocations c' = S (invocations c).
Proof.
  unfold superstep, agent_node. intros ->.
  destruct (llm (invocations c) (messages c)) as [m|e]; simpl; [|done].
  intros [= <-]. by exists m.
Qed.

Lemma tools_step c c' :
  next c = tools → superstep llm execute c = Ok c' →
  ∃ text requests mid,
    last (messages c) = Some (AIMessage text requests mid) ∧
    messages c' = messages c ++ ((λ tc, ToolMessage (execute tc) (id tc) None) <$> requests) ∧
    next c' = agent ∧
    invocations c' = invocations c.
Proof.
  unfold superstep, tool_node. intros ->.
  destruct (last (messages c)) as [[?|text requests mid|? ? ?]|]; simpl; try done.
  intros [= <-]. exists text, requests, mid. simpl.
  by rewrite add_messages_new by apply results_new.
Qed.


Lemma run_from_failed_more_budget n : ∀ c e extra,
  run_from llm execute n c = Failed e →
  run_from llm execute (n + extra) c = Failed e.
Proof.
  induction n as [|n IH]; intros c e extra; simpl.
  - by destruct (next c).
  - destruct (next c); try done;
      (destruct (superstep llm execute c) as [c'|e']; [apply IH|done]).
Qed.



(** *** The invariant of the history *)

Lemma resolved_nil_calls history m :
  resolved history → tool_calls m = [] → resolved (history ++ [m]).
Proof.
  intros Hres Hm i m' tc Hi Htc.
  destruct (decide (i < length history)) as [Hlt|Hge].
  - rewrite lookup_app_l in Hi by done.
    destruct (Hres i m' tc Hi Htc) as (j & body & mid & Hij & Hj).
    exists j, body, mid. split; [done|]. by apply lookup_app_l_Some.
  - rewrite lookup_app_r in Hi by lia.
    destruct (i - length history) as [|k]; simpl in Hi; [|done].
    injection Hi as <-. rewrite Hm in Htc. by apply elem_of_nil in Htc.
Qed.





(** A run passes only through reachable points. *)
Lemma run_from_reachable c0 n : ∀ c,
  reachable llm execute c0 c →
  match run_from llm execute n c with
  | Finished final => ∃ c', reachable llm execute c0 c' ∧ next c' = END ∧ messages c' = final
  | Running c' => reachable llm execute c0 c'
  | Failed _ => True
  end.
Proof.
  induction n as [|n IH]; intros c Hreach; simpl.
  - destruct (next c) eqn:Hnext; eauto.
  - destruct (next c) eqn:Hnext; eauto;
      (destruct (superstep llm execute c) as [c'|e] eqn:Hstep; [|done];
       apply IH; apply (reachable_step _ _ _ c); [done|];
       split; [by rewrite Hnext|done]).
Qed.


End Loop.



(** ** Termination *)

Section Scripted.

Variable execute : ToolCall → string.

Lemma scripted_lookup used r rest history :
  scripted (used ++ r :: rest) (length used) history = Ok r.
Proof. unfold scripted. by rewrite list_lookup_middle. Qed.

(** With distinct identifiers, the next response of a script is new to a
    history made of the responses used so far. *)
Lemma script_fresh used r rest history :
  distinct_ids (used ++ r :: rest) → ids_from used history → fresh history r.
Proof.
  unfold distinct_ids. rewrite omap_app. intros Hdistinct Hids i old Hi Hold Hold_id.
  apply NoDup_app in Hdistinct as (_ & Hdisjoint & _).
  apply (Hdisjoint i); [by apply (Hids old)|].
  simpl. rewrite Hi. apply list_elem_of_here.
Qed.

Lemma ids_from_round used r history :
  ids_from used history →
  ids_from (used ++ [r])
    ((history ++ [r]) ++ ((λ tc, ToolMessage (execute tc) (id tc) None) <$> tool_calls r)).
Proof.
  intros Hids old i Hold Hi. rewrite omap_app. apply elem_of_app.
  apply elem_of_app in Hold as [Hold|Hold]; [apply elem_of_app in Hold as [Hold|Hold]|].
  - left. by apply (Hids old).
  - right. apply list_elem_of_singleton in Hold as ->. simpl. rewrite Hi.
    apply list_elem_of_here.
  - apply list_elem_of_fmap in Hold as (tc & -> & _). done.
Qed.

Lemma ids_from_entry question : ids_from [] [HumanMessage question None].
Proof. intros old i Hold Hi. apply list_elem_of_singleton in Hold as ->. done. Qed.

(** A response that requests tools: two steps on, the history has the
    response and the results. *)
Lemma scripted_round used r rest history n :
  distinct_ids (used ++ r :: rest) → ids_from used history → requests_tools r →
  run_from (scripted (used ++ r :: rest)) execute (S (S n))
    {| next := agent; messages := history; invocations := length used |} =
  run_from (scripted (used ++ r :: rest)) execute n
    {| next := agent;
       messages := (history ++ [r]) ++
                   ((λ tc, ToolMessage (execute tc) (id tc) None) <$> tool_calls r);
       invocations := S (length used) |}.
Proof.
  intros Hdistinct Hids Hr.
  destruct (tool_calls_nonempty r Hr) as (text & requests & mid & -> & Hreq).
  cbn [run_from next]. unfold superstep at 1, agent_node.
  cbn [next messages invocations]. rewrite scripted_lookup.
  cbn [mbind result_bind mret result_ret add_messages foldl].
  rewrite (add_message_fresh history) by (by eapply script_fresh).
  rewrite tools_condition_snoc. cbn [tool_calls]. destruct requests as [|tc tcs]; [done|].
  cbn [run_from next]. unfold superstep at 1, tool_node.
  cbn [next messages invocations]. rewrite last_snoc.
  cbn [mbind result_bind mret result_ret].
  by rewrite add_messages_new by apply results_new.
Qed.



(** The scripted model over responses that all request tools: two steps
    for each of them. *)
Lemma scripted_run_rounds rest : ∀ used history tail n,
  Forall requests_tools rest →
  distinct_ids (used ++ rest ++ tail) → ids_from used history →
  ∃ history',
    ids_from (used ++ rest) history' ∧
    run_from (scripted (used ++ rest ++ tail)) execute (2 * length rest + n)
      {| next := agent; messages := history; invocations := length used |} =
    run_from (scripted (used ++ rest ++ tail)) execute n
      {| next := agent; messages := history'; invocations := length used + length rest |}.
Proof.
  induction rest as [|r rest IH]; intros used history tail n Hall Hdistinct Hids.
  - exists history. rewrite app_nil_r, Nat.add_0_r. by split.
  - apply Forall_cons in Hall as [Hr Hall]. rewrite <- app_comm_cons in *.
    pose proof Hdistinct as Hdistinct'.
    rewrite cons_middle, app_assoc in Hdistinct'.
    destruct (IH (used ++ [r]) _ tail n Hall Hdistinct' (ids_from_round used r history Hids))
      as (history' & Hids' & Hrun).
    rewrite <- !app_assoc, <- !cons_middle in Hrun, Hids'.
    rewrite length_app, Nat.add_1_r in Hrun.
    exists history'. split; [done|].
    replace (2 * length (r :: rest) + n) with (S (S (2 * length rest + n))) by (simpl; lia).
    rewrite scripted_round by done. rewrite Hrun. do 2 f_equal. simpl. lia.
Qed.



End Scripted.



(** ** The session facade *)

(** The unit tests of [tests/test_chatbot.py], run on the model. *)

Example test_ask_success :
  ask (Some (Ok (λ _, Some (Ok {[ "messages" := [Structured (AIMessage "Test answer" [] None)] ]}))))
      "Test question"
  = Some (Ok (PyStr "Test answer")).
Proof. reflexivity. Qed.

Example test_ask_success_with_dict_message :
  ask (Some (Ok (λ _, Some (Ok {[ "messages" :=
                                    [Mapping {[ "content" := PyStr "Test answer" ]}] ]}))))
      "Test question"
  = Some (Ok (PyStr "Test answer")).
Proof. reflexivity. Qed.

Example test_ask_empty_messages :
  ask (Some (Ok (λ _, Some (Ok {[ "messages" := [] ]})))) "Test question"
  = Some (Ok (PyStr no_answer)).
Proof. reflexivity. Qed.

Example test_ask_error :
  ask (Some (Raise (Exception "Workflow error"))) "Test question"
  = Some (Ok (PyStr generic_error)).
Proof. reflexivity. Qed.

(** The mocked model of [test_adaptive_rag_workflow] run through the loop:
    rewrite, search, final answer. *)
Example adaptive_rag_workflow :
  ask (Some (Ok (build_workflow (scripted adaptive_script) no_results)))
      "What are the rules?"
  = Some (Ok (PyStr "Final answer about privacy regulations")).
Proof. vm_compute. reflexivity. Qed.

(** The model that hands out its first message again, with the final
    answer in it: the message takes its old place, and [ask] returns the
    text of the tool result that is still the last message. *)
Example replacing_workflow :
  ask (Some (Ok (build_workflow (scripted replacing_script) no_results))) "Test question"
  = Some (Ok (PyStr "[]")).
Proof. vm_compute. reflexivity. Qed.

Ltac step := cbn [mbind partial_bind mret partial_ret].

Lemma ask_extracts app question final_state final_messages :
  app (initial_state question) = Some (Ok final_state) →
  final_state !! "messages" = Some final_messages →
  ask (Some (Ok app)) question =
    Some (Ok match last final_messages with
             | Some (Structured last_message) => PyStr (content last_message)
             | Some (Mapping last_message) =>
                 default (PyStr no_answer) (last_message !! "content")
             | Some Opaque | None => PyStr no_answer
             end).
Proof.
  intros Happ Hmessages. unfold ask, try_partial. step.
  fold (initial_state question). rewrite Happ. step.
  unfold dict_index. rewrite Hmessages.
  destruct (last final_messages) as [[m|d|]|]; try done.
  by destruct (d !! "content").
Qed.

(** C7: [ask] raises nothing. When the final history is empty, or its last
    message offers no content, the answer is the fixed string [no_answer];
    when building the workflow raises, or running it raises, the answer is
    the fixed string [generic_error]; and whenever building and running
    come to an end, [ask] returns an answer. *)
Theorem ask_never_raises (built : partial App) (question : string) :
  (∀ e, ask built question ≠ Some (Raise e)) ∧
  (∀ app final_state final_messages,
     built = Some (Ok app) →
     app (initial_state question) = Some (Ok final_state) →
     final_state !! "messages" = Some final_messages →
     final_messages = [] ∨ (∃ m, last final_messages = Some m ∧ no_content m) →
     ask built question = Some (Ok (PyStr no_answer))) ∧
  (∀ e, built = Some (Raise e) →
     ask built question = Some (Ok (PyStr generic_error))) ∧
  (∀ app e, built = Some (Ok app) →
     app (initial_state question) = Some (Raise e) →
     ask built question = Some (Ok (PyStr generic_error))) ∧
  (built ≠ None →
   (∀ app, built = Some (Ok app) → app (initial_state question) ≠ None) →
   ∃ answer, ask built question = Some (Ok answer)).
Proof.
  split_and!.
  - intros e. unfold ask, try_partial.
    destruct built as [[app|e']|]; step; [|done..].
    fold (initial_state question).
    destruct (app (initial_state question)) as [[final_state|e']|]; step; [|done..].
    destruct (dict_index final_state "messages") as [final_messages|e']; [|done].
    destruct (last final_messages) as [[m|d|]|]; try done.
    by destruct (d !! "content").
  - intros app final_state final_messages -> Happ Hmessages Hcase.
    etrans; [exact (ask_extracts _ _ _ _ Happ Hmessages)|].
    destruct Hcase as [->|(m & -> & Hm)]; [done|].
    destruct m as [m|d|]; simpl in Hm; [done| |done]. by rewrite Hm.
  - by intros e ->.
  - intros app e -> Happ. unfold ask, try_partial. step.
    fold (initial_state question). by rewrite Happ.
  - intros Hbuilt Hran. unfold ask, try_partial.
    destruct built as [[app|e']|]; step; [|by eexists|done].
    specialize (Hran app eq_refl). fold (initial_state question).
    destruct (app (initial_state question)) as [[final_state|e']|]; step;
      [|by eexists|done].
    destruct (dict_index final_state "messages") as [final_messages|e']; [|by eexists].
    destruct (last final_messages) as [[m|d|]|]; try by eexists.
    destruct (d !! "content"); by eexists.
Qed.

Lemma ask_never_raises_witness :
  ask (Some (Ok (λ _, Some (Ok {[ "messages" := [] ]})))) "Test question"
    = Some (Ok (PyStr no_answer)) ∧
  ask (Some (Raise (Exception "Workflow error"))) "Test question"
    = Some (Ok (PyStr generic_error)).
Proof.
  assert (({[ "messages" := [] ]} : AgentState) !! "messages" = Some []) as Hempty
    by reflexivity.
  split.
  - apply (proj1 (proj2 (ask_never_raises
                           (Some (Ok (λ _, Some (Ok {[ "messages" := [] ]}))))
                           "Test question"))
             (λ _, Some (Ok {[ "messages" := [] ]})) {[ "messages" := [] ]} []
             eq_refl eq_refl Hempty (or_introl eq_refl)).
  - apply (proj1 (proj2 (proj2 (ask_never_raises
                                  (Some (Raise (Exception "Workflow error")))
                                  "Test question")))
             (Exception "Workflow error") eq_refl).
Defined.

(** C9: when the workflow ends with a final message that carries the text
    [X], as a message object or as a mapping with the key [content], [ask]
    returns exactly [X]; so it does for the loop of [build_workflow] when a
    run of it finishes with a last message of content [X]. *)
Theorem ask_returns_final_content (question X : string) :
  (∀ app final_state history last_message,
     app (initial_state question) = Some (Ok final_state) →
     final_state !! "messages" = Some (history ++ [last_message]) →
     carries last_message X →
     ask (Some (Ok app)) question = Some (Ok (PyStr X))) ∧
  (∀ llm execute final m,
     invoke llm execute [HumanMessage question None] = Ok final →
     last final = Some m → content m = X →
     ask (Some (Ok (build_workflow llm execute))) question = Some (Ok (PyStr X))).
Proof.
  split.
  - intros app final_state history last_message Happ Hmessages Hcarries.
    etrans; [exact (ask_extracts _ _ _ _ Happ Hmessages)|]. rewrite last_snoc.
    destruct last_message as [m|d|]; simpl in Hcarries; [by subst| |done].
    by rewrite Hcarries.
  - intros llm execute final m Hrun Hlast <-.
    etrans; [apply (ask_extracts _ _ {[ "messages" := Structured <$> final ]}
                      (Structured <$> final))|].
    + unfold build_workflow, initial_state, dict_index. rewrite lookup_singleton_eq.
      cbn [mbind result_bind mapM as_message mret result_ret]. by rewrite Hrun.
    + apply lookup_singleton_eq.
    + by rewrite fmap_last, Hlast.
Qed.

Lemma ask_returns_final_content_witness :
  carries (Structured (AIMessage "Test answer" [] None)) "Test answer" ∧
  carries (Mapping {[ "content" := PyStr "Test answer" ]}) "Test answer" ∧
  ask (Some (Ok (λ _, Some (Ok {[ "messages" := [Structured (AIMessage "Test answer" [] None)] ]}))))
      "Test question" = Some (Ok (PyStr "Test answer")) ∧
  ask (Some (Ok (λ _, Some (Ok {[ "messages" :=
                                    [Mapping {[ "content" := PyStr "Test answer" ]}] ]}))))
      "Test question" = Some (Ok (PyStr "Test answer")).
Proof.
  assert (carries (Structured (AIMessage "Test answer" [] None)) "Test answer") as Hobject
    by reflexivity.
  assert (carries (Mapping {[ "content" := PyStr "Test answer" ]}) "Test answer") as Hmapping
    by reflexivity.
  split; [exact Hobject|]. split; [exact Hmapping|]. split.
  - apply (proj1 (ask_returns_final_content "Test question" "Test answer")
             (λ _, Some (Ok {[ "messages" := [Structured (AIMessage "Test answer" [] None)] ]}))
             {[ "messages" := [Structured (AIMessage "Test answer" [] None)] ]}
             [] (Structured (AIMessage "Test answer" [] None)) eq_refl);
      [reflexivity|exact Hobject].
  - apply (proj1 (ask_returns_final_content "Test question" "Test answer")
             (λ _, Some (Ok {[ "messages" :=
                                 [Mapping {[ "content" := PyStr "Test answer" ]}] ]}))
             {[ "messages" := [Mapping {[ "content" := PyStr "Test answer" ]}] ]}
             [] (Mapping {[ "content" := PyStr "Test answer" ]}) eq_refl);
      [reflexivity|exact Hmapping].
Defined.

End ChatbotSpec.

(** * Further properties of the tools *)

Module MoreToolsSpec.
Import GraphNodes Predicates Mocks MoreTools MorePredicates GraphNodesSpec.

(** ** Query rewriting *)

(** X1: [rewrite_query_tool] raises nothing. It returns the chain's
    rewrite when the chain answers, and the question it was given, as it
    is, when there is no chain or the chain raises; the chain is asked at
    most once. *)
Theorem rewrite_query_fail_open (question : string) (chain : option RewriterChain) :
  ∃ answer,
    returned (rewrite_query_tool question chain) = Ok answer ∧
    length (calls_of (rewrite_query_tool question chain)) ≤ 1 ∧
    (chain = None → answer = question) ∧
    (∀ c e, chain = Some c →
            rewriter_invoke c {[ "question" := PyStr question ]} = Raise e →
            answer = question) ∧
    (∀ c rewritten, chain = Some c →
            rewriter_invoke c {[ "question" := PyStr question ]} = Ok rewritten →
            answer = rewritten).
Proof.
  destruct chain as [c|]; [|exists question; split_and!; try done; simpl; lia].
  unfold rewrite_query_tool. unfold_M.
  destruct (rewriter_invoke c _) as [rewritten|e] eqn:Hinvoke; simpl.
  - exists rewritten. split_and!; try done; try (simpl; lia).
    + intros c' e [= <-]. congruence.
    + intros c' rewritten' [= <-]. congruence.
  - exists question. split_and!; try done; try (simpl; lia).
    intros c' rewritten' [= <-]. congruence.
Qed.

Lemma rewrite_query_fail_open_witness :
  returned (rewrite_query_tool "What are the rules?"
              (Some {| rewriter_invoke := λ _, Raise (Exception "Exception") |}))
    = Ok "What are the rules?".
Proof.
  destruct (rewrite_query_fail_open "What are the rules?"
              (Some {| rewriter_invoke := λ _, Raise (Exception "Exception") |}))
    as (answer & -> & _ & _ & Hraise & _).
  f_equal. by apply (Hraise _ (Exception "Exception") eq_refl).
Defined.

(** ** Web search *)

(** The loop of [web_search_tool] over the hits. *)
Lemma web_loop items : ∀ acc log,
  for_each items (λ web_results r, d ← pure (web_result r); mret (web_results ++ [d]))
    acc log =
  (match mapM web_result items with
   | Ok docs => Ok (acc ++ docs)
   | Raise e => Raise e
   end, log).
Proof.
  induction items as [|r items IH]; intros acc log; cbn [for_each mapM].
  - cbn [mret result_ret]. by rewrite app_nil_r.
  - unfold mbind at 1, M_bind. unfold mbind at 1, M_bind. unfold pure.
    destruct (web_result r) as [d|e]; cbn [mbind result_bind]; [|done].
    unfold mret at 1, M_ret. rewrite IH.
    destruct (mapM web_result items) as [docs|e]; [|done].
    cbn [mbind result_bind mret result_ret]. by rewrite <- app_assoc.
Qed.

Lemma web_results_dicts hits : mapM web_result (PyDict <$> hits) = Ok (web_doc <$> hits).
Proof.
  induction hits as [|fields hits IH]; [done|].
  cbn [fmap list_fmap mapM]. fold (fmap (M := list) PyDict hits). rewrite IH. done.
Qed.

Lemma web_results_malformed items item :
  item ∈ items → ¬ is_dict item → ∃ e, mapM web_result items = Raise e.
Proof.
  intros Hin Hbad. induction items as [|r items IH]; [by apply elem_of_nil in Hin|].
  cbn [mapM]. destruct (web_result r) as [d|e] eqn:Hr; [|by eexists].
  apply elem_of_cons in Hin as [->|Hin].
  - destruct r; try done. exfalso. apply Hbad. by eexists.
  - destruct (IH Hin) as [e ->]. by eexists.
Qed.

(** X2: when the client answers a mapping whose [results] is a list of
    mappings, [web_search_tool] returns one document for each hit, in
    order, with exactly the keys [content], [url] and [title] (a field the
    hit lacks becomes the empty string), after one search for at most 3
    results in depth "advanced". *)
Theorem web_search_maps_hits (client : TavilyClient) (q : string) (answer : dict)
    (hits : list dict) :
  search client q 3 "advanced" = Ok answer →
  answer !! "results" = Some (PyList (PyDict <$> hits)) →
  run (web_search_tool (Some client) q) =
    (Ok (web_doc <$> hits), [TavilySearch q 3 "advanced"]) ∧
  Forall (λ d : dict, dom d = ({[ "content"; "url"; "title" ]} : gset string))
         (web_doc <$> hits) ∧
  Forall2 (λ (fields d : dict),
             ∀ k, k ∈ ["content"; "url"; "title"] →
                  d !! k = Some (default (PyStr "") (fields !! k)))
          hits (web_doc <$> hits).
Proof.
  intros Hsearch Hresults. split_and!.
  - unfold web_search_tool, run, try_catch, perform.
    unfold mbind at 1, M_bind. rewrite Hsearch, Hresults.
    unfold mbind at 1, M_bind. unfold pure, py_iter.
    by rewrite web_loop, web_results_dicts.
  - apply Forall_fmap, Forall_forall. intros fields _. unfold web_doc. simpl.
    rewrite !dom_insert_L, dom_singleton_L. set_solver.
  - apply Forall2_fmap_r, Forall_Forall2_diag, Forall_forall.
    intros fields _ k Hk. unfold web_doc, dict_get.
    repeat (apply elem_of_cons in Hk as [->|Hk]); [by simplify_map_eq..|].
    by apply elem_of_nil in Hk.
Qed.

Lemma web_search_maps_hits_witness :
  let hit : dict := {[ "content" := PyStr "Test result"; "title" := PyStr "Test" ]} in
  returned (web_search_tool (Some (tavily_returning {[ "results" := PyList [PyDict hit] ]}))
              "Test question")
    = Ok [ {[ "content" := PyStr "Test result"; "url" := PyStr "";
              "title" := PyStr "Test" ]} ].
Proof.
  intros hit.
  assert (({[ "results" := PyList [PyDict hit] ]} : dict) !! "results"
          = Some (PyList (PyDict <$> [hit]))) as Hresults by reflexivity.
  destruct (web_search_maps_hits (tavily_returning {[ "results" := PyList [PyDict hit] ]})
              "Test question" {[ "results" := PyList [PyDict hit] ]} [hit] eq_refl Hresults)
    as [Hrun _].
  unfold returned. rewrite Hrun. vm_compute. reflexivity.
Defined.

(** X3: [web_search_tool] raises nothing, whatever the client does. The
    result is the empty list when the search raises, when the answer has no
    [results], and when a single hit among the results is not a mapping:
    one malformed hit discards the well-formed ones with it. *)
Theorem web_search_fail_open (client : option TavilyClient) (q : string) :
  ∃ docs,
    returned (web_search_tool client q) = Ok docs ∧
    (∀ c e, client = Some c → search c q 3 "advanced" = Raise e → docs = []) ∧
    (∀ c answer, client = Some c → search c q 3 "advanced" = Ok answer →
       answer !! "results" = None → docs = []) ∧
    (∀ c answer items item, client = Some c → search c q 3 "advanced" = Ok answer →
       answer !! "results" = Some (PyList items) → item ∈ items → ¬ is_dict item →
       docs = []).
Proof.
  destruct client as [c|]; [|by exists []].
  unfold web_search_tool, returned, run, try_catch, perform.
  unfold mbind at 1, M_bind.
  destruct (search c q 3 "advanced") as [answer|e] eqn:Hsearch.
  - destruct (answer !! "results") as [hits|] eqn:Hresults.
    + unfold mbind at 1, M_bind. unfold pure.
      destruct (py_iter hits) as [items|e] eqn:Hiter.
      * rewrite web_loop.
        destruct (mapM web_result items) as [docs|e] eqn:Hdocs; simpl.
        -- exists docs. split_and!; [done|intros; simplify_eq; congruence..|].
           intros c' answer' items' item [= <-] Hanswer Hitems Hin Hbad.
           rewrite Hsearch in Hanswer. injection Hanswer as <-.
           rewrite Hresults in Hitems. injection Hitems as ->.
           simpl in Hiter. injection Hiter as <-.
           destruct (web_results_malformed _ _ Hin Hbad) as [e He]. congruence.
        -- exists []. by split_and!.
      * exists []. by split_and!.
    + exists []. by split_and!.
  - exists []. by split_and!.
Qed.

Lemma web_search_fail_open_witness :
  let answer : dict :=
    {[ "results" := PyList [ PyDict {[ "content" := PyStr "Test result" ]};
                             PyStr "not a mapping" ] ]} in
  PyStr "not a mapping" ∈ [ PyDict {[ "content" := PyStr "Test result" ]};
                            PyStr "not a mapping" ] ∧
  ¬ is_dict (PyStr "not a mapping") ∧
  returned (web_search_tool (Some (tavily_returning answer)) "Test question") = Ok [].
Proof.
  intros answer.
  assert (PyStr "not a mapping" ∈ [ PyDict {[ "content" := PyStr "Test result" ]};
                                    PyStr "not a mapping" ]) as Hin
    by (apply list_elem_of_further, list_elem_of_here).
  assert (¬ is_dict (PyStr "not a mapping")) as Hbad by (by intros [d Hd]).
  split; [exact Hin|]. split; [exact Hbad|].
  destruct (web_search_fail_open (Some (tavily_returning answer)) "Test question")
    as (docs & -> & _ & _ & Hmalformed).
  f_equal.
  by apply (Hmalformed (tavily_returning answer) answer _ _ eq_refl eq_refl eq_refl Hin Hbad).
Defined.

(** ** Hybrid search and the metadata filter *)

Lemma enrichment_calls_bound graph matches :
  length (concat (enrichment_calls graph <$> matches)) ≤ length matches ∧
  Forall (λ c, ∃ params, c = GraphQuery related_query params)
         (concat (enrichment_calls graph <$> matches)) ∧
  (graph = None → concat (enrichment_calls graph <$> matches) = []).
Proof.
  induction matches as [|m matches (IHlen & IHall & IHnone)]; [by split_and!|].
  cbn [fmap list_fmap concat]. unfold enrichment_calls at 1 3 5.
  destruct graph as [g|]; [destruct (truthy (doc_id_of m))|]; simpl; split_and!;
    try done; try lia; eauto.
Qed.

(** X4: with a vector store, [hybrid_search_tool] raises nothing: it
    places one similarity search, then at most one graph query for each
    document it returns, each of them the related-context query; when the
    search raises it returns the empty list and asks the graph nothing;
    without a graph it asks the graph nothing and every document has
    exactly the keys [content] and [metadata]. *)
Theorem hybrid_search_fail_open (vs : VectorStore) (graph : option Neo4jGraph) (q : string) :
  ∃ docs graph_calls,
    run (hybrid_search_tool (Some vs) graph q) =
      (Ok docs, SimilaritySearch q 3 :: graph_calls) ∧
    length graph_calls ≤ length docs ∧
    Forall (λ c, ∃ params, c = GraphQuery related_query params) graph_calls ∧
    (∀ e, similarity_search vs q 3 = Raise e → docs = [] ∧ graph_calls = []) ∧
    (graph = None →
     graph_calls = [] ∧
     Forall (λ d : dict, dom d = ({[ "content"; "metadata" ]} : gset string)) docs).
Proof.
  destruct (similarity_search vs q 3) as [matches|e] eqn:Hsearch.
  - exists (enriched graph <$> matches), (concat (enrichment_calls graph <$> matches)).
    destruct (enrichment_calls_bound graph matches) as (Hlen & Hall & Hnone).
    split_and!; try done.
    + by apply hybrid_search_run.
    + by rewrite length_fmap.
    + intros ->. split; [by apply Hnone|].
      apply Forall_fmap, Forall_forall. intros m _. unfold enriched, base_doc. simpl.
      rewrite dom_insert_L, dom_singleton_L. set_solver.
  - exists [], []. split_and!; try done.
    unfold hybrid_search_tool, run, try_catch, perform.
    unfold mbind at 1, M_bind. by rewrite Hsearch.
Qed.

Lemma hybrid_search_fail_open_witness :
  run (hybrid_search_tool (Some vector_store_raising) (Some (graph_returning [related_record]))
         "Test question")
    = (Ok [], [SimilaritySearch "Test question" 3]).
Proof.
  destruct (hybrid_search_fail_open vector_store_raising
              (Some (graph_returning [related_record])) "Test question")
    as (docs & graph_calls & -> & _ & _ & Hraise & _).
  by destruct (Hraise (Exception "Exception") eq_refl) as [-> ->].
Defined.

(** X5: [metadata_filter_tool] raises nothing: without a store, or when
    the filtered search raises, it returns the empty list; otherwise one
    document for each match, in order, holding the match's content and
    metadata and nothing else. On the same matches it returns what
    [hybrid_search_tool] returns without a graph. *)
Theorem metadata_filter_fail_open (vector_store : option FilterableVectorStore)
    (q : string) (filter_dict : dict) :
  ∃ docs,
    metadata_filter_tool vector_store q filter_dict = Ok docs ∧
    (vector_store = None → docs = []) ∧
    (∀ vs e, vector_store = Some vs →
       similarity_search_filter vs q 3 filter_dict = Raise e → docs = []) ∧
    (∀ vs matches, vector_store = Some vs →
       similarity_search_filter vs q 3 filter_dict = Ok matches →
       docs = base_doc <$> matches ∧
       ∀ plain, similarity_search plain q 3 = Ok matches →
                returned (hybrid_search_tool (Some plain) None q) = Ok docs).
Proof.
  destruct vector_store as [vs|]; [|by exists []].
  unfold metadata_filter_tool, try_result.
  destruct (similarity_search_filter vs q 3 filter_dict) as [matches|e] eqn:Hsearch.
  - exists (base_doc <$> matches). split_and!; [done|done|intros; simplify_eq; congruence|].
    intros vs' matches' [= <-] Hmatches. rewrite Hsearch in Hmatches.
    injection Hmatches as <-. split; [done|].
    intros plain Hplain. unfold returned.
    by rewrite (hybrid_search_run _ _ _ _ Hplain).
  - exists []. split_and!; [done|done|done|intros; simplify_eq; congruence].
Qed.

Lemma metadata_filter_fail_open_witness :
  metadata_filter_tool (Some {| similarity_search_filter := λ _ _ _, Ok [doc1] |})
    "Test question" {[ "document_type" := PyStr "Provvedimento" ]}
  = Ok [base_doc doc1].
Proof.
  destruct (metadata_filter_fail_open
              (Some {| similarity_search_filter := λ _ _ _, Ok [doc1] |})
              "Test question" {[ "document_type" := PyStr "Provvedimento" ]})
    as (docs & -> & _ & _ & Hmatches).
  f_equal. by destruct (Hmatches _ [doc1] eq_refl eq_refl) as [-> _].
Defined.

(** ** Structured query: the calls it places *)

(** X6: [structured_query_tool] places at most two calls. When the chain
    answers, the chain is the only service called and the graph is never
    queried. A graph query is placed only after the primary path has
    raised, and it is the fallback query with the user's query as its
    parameter; a chain invocation, when there is one, comes first and
    carries the user's query. *)
Theorem structured_query_calls (chain : option GraphCypherQAChain)
    (graph : option Neo4jGraph) (q : string) :
  length (calls_of (structured_query_tool chain graph q)) ≤ 2 ∧
  (∀ c answer, chain = Some c → chain_invoke c {[ "query" := PyStr q ]} = Ok answer →
     calls_of (structured_query_tool chain graph q) = [ChainInvoke {[ "query" := PyStr q ]}]) ∧
  (∀ cypher params,
     GraphQuery cypher params ∈ calls_of (structured_query_tool chain graph q) →
     cypher = fallback_query ∧ params = {[ "query" := PyStr q ]} ∧ primary_raises chain q) ∧
  (∀ input,
     ChainInvoke input ∈ calls_of (structured_query_tool chain graph q) →
     input = {[ "query" := PyStr q ]} ∧
     head (calls_of (structured_query_tool chain graph q)) = Some (ChainInvoke input)).
Proof.
  unfold calls_of.
  destruct chain as [c|].
  - destruct (chain_invoke c {[ "query" := PyStr q ]}) as [answer|e] eqn:Hinvoke.
    + rewrite (structured_query_primary _ _ _ _ Hinvoke). simpl. split_and!.
      * lia.
      * done.
      * intros cypher params Hin. apply list_elem_of_singleton in Hin. done.
      * intros input Hin. apply list_elem_of_singleton in Hin. by injection Hin as <-.
    + assert (primary_raises (Some c) q) as Hraises by (by exists e).
      destruct graph as [g|].
      * unfold structured_query_tool. unfold_M. rewrite Hinvoke.
        destruct (query g fallback_query _); simpl; (split_and!;
          [lia
          |intros; simplify_eq; congruence
          |intros cypher params Hin;
           apply elem_of_cons in Hin as [[=]|Hin]; apply list_elem_of_singleton in Hin;
           by injection Hin as -> ->
          |intros input Hin;
           apply elem_of_cons in Hin as [[= <-]|Hin]; [done|];
           by apply list_elem_of_singleton in Hin]).
      * unfold structured_query_tool. unfold_M. rewrite Hinvoke. simpl. split_and!.
        -- lia.
        -- intros; simplify_eq; congruence.
        -- intros cypher params Hin. by apply list_elem_of_singleton in Hin.
        -- intros input Hin. apply list_elem_of_singleton in Hin. by injection Hin as <-.
  - destruct graph as [g|].
    + unfold structured_query_tool. unfold_M.
      destruct (query g fallback_query _); simpl; (split_and!;
        [lia
        |intros; simplify_eq; congruence
        |intros cypher params Hin; apply list_elem_of_singleton in Hin;
         by injection Hin as -> ->
        |intros input Hin; by apply list_elem_of_singleton in Hin]).
    + simpl. split_and!; [lia|intros; simplify_eq; congruence|intros ? ? Hin|intros ? Hin];
        by apply elem_of_nil in Hin.
Qed.

Lemma structured_query_calls_witness :
  calls_of (structured_query_tool (Some (chain_returning chain_answer))
              (Some (graph_returning [entity_record])) "Test question")
    = [ChainInvoke {[ "query" := PyStr "Test question" ]}].
Proof.
  apply (proj1 (proj2 (structured_query_calls (Some (chain_returning chain_answer))
                         (Some (graph_returning [entity_record])) "Test question"))
           (chain_returning chain_answer) chain_answer eq_refl eq_refl).
Defined.

(** ** Grading documents: composition *)

Lemma filter_keeps_twice g question (docs : list dict) :
  filter (λ d, keeps g question d = true) (filter (λ d, keeps g question d = true) docs)
  = filter (λ d, keeps g question d = true) docs.
Proof.
  induction docs as [|d docs IH]; [done|].
  rewrite filter_cons. destruct (decide (keeps g question d = true)) as [Hd|Hd]; [|done].
  by rewrite filter_cons, decide_True, IH.
Qed.

(** X7: grading is idempotent. With a grader whose verdict depends on its
    input only, running [grade_documents_tool] on its own output returns
    that output again. *)
Theorem grade_documents_idempotent (documents : list dict) (question : string)
    (g : Grader) (kept : list dict) :
  returned (grade_documents_tool documents question (Some g)) = Ok kept →
  returned (grade_documents_tool kept question (Some g)) = Ok kept.
Proof.
  unfold returned. rewrite !grade_documents_run. simpl.
  intros [= <-]. by rewrite filter_keeps_twice.
Qed.

Lemma grade_documents_idempotent_witness :
  let documents : list dict :=
    [ {[ "content" := PyStr "a" ]}; {[ "content" := PyStr "" ]};
      {[ "page_content" := PyStr "b" ]}; {[ "content" := PyStr "c" ]} ] in
  let kept : list dict := [ {[ "content" := PyStr "a" ]}; {[ "page_content" := PyStr "b" ]} ] in
  returned (grade_documents_tool documents "q" (Some (grader_on "a" "b"))) = Ok kept ∧
  returned (grade_documents_tool kept "q" (Some (grader_on "a" "b"))) = Ok kept.
Proof.
  intros documents kept.
  assert (returned (grade_documents_tool documents "q" (Some (grader_on "a" "b"))) = Ok kept)
    as Hkept by (vm_compute; reflexivity).
  split; [exact Hkept|].
  exact (grade_documents_idempotent documents "q" (grader_on "a" "b") kept Hkept).
Defined.

(** X8: grading a concatenation is grading the parts: the documents kept
    from [docs1 ++ docs2] are those kept from [docs1] followed by those
    kept from [docs2], and the grader is asked the same questions in the
    same order. *)
Theorem grade_documents_app (docs1 docs2 : list dict) (question : string) (g : Grader) :
  ∃ kept1 kept2,
    returned (grade_documents_tool docs1 question (Some g)) = Ok kept1 ∧
    returned (grade_documents_tool docs2 question (Some g)) = Ok kept2 ∧
    returned (grade_documents_tool (docs1 ++ docs2) question (Some g)) = Ok (kept1 ++ kept2) ∧
    calls_of (grade_documents_tool (docs1 ++ docs2) question (Some g)) =
      calls_of (grade_documents_tool docs1 question (Some g)) ++
      calls_of (grade_documents_tool docs2 question (Some g)).
Proof.
  unfold returned, calls_of. rewrite !grade_documents_run. simpl.
  do 2 eexists. split_and!; [done|done|..].
  - by rewrite filter_app.
  - by rewrite filter_app, fmap_app.
Qed.

(** X9: when the grader is down, raising on every input,
    [grade_documents_tool] keeps exactly the documents that have text, in
    order: a document without text is dropped even then. *)
Theorem grade_documents_grader_down (documents : list dict) (question : string)
    (g : Grader) :
  (∀ input, ∃ e, grader_invoke g input = Raise e) →
  returned (grade_documents_tool documents question (Some g)) =
    Ok (filter has_text documents).
Proof.
  intros Hdown. unfold returned. rewrite grade_documents_run. simpl. f_equal.
  induction documents as [|d documents IH]; [done|].
  rewrite !filter_cons, IH. unfold keeps, has_text.
  destruct (Hdown (grader_input question d)) as [e ->].
  by destruct (truthy (doc_text d)).
Qed.

Lemma grade_documents_grader_down_witness :
  (∀ input, ∃ e, grader_invoke grader_raises input = Raise e) ∧
  returned (grade_documents_tool
              [ {[ "content" := PyStr "a" ]}; {[ "title" := PyStr "b" ]} ] "q"
              (Some grader_raises))
    = Ok [ {[ "content" := PyStr "a" ]} ].
Proof.
  assert (∀ input, ∃ e, grader_invoke grader_raises input = Raise e) as Hdown
    by (intros input; by eexists).
  split; [exact Hdown|].
  rewrite (grade_documents_grader_down _ "q" grader_raises Hdown).
  vm_compute. reflexivity.
Defined.

(** X10: verdicts are compared as exact strings, and the two tools lean
    opposite ways on a verdict they do not know. A relevance verdict other
    than ['yes'] (such as ['Yes']) drops the document;
    a hallucination and a usefulness verdict other than ['no'] (such as
    ['No']) accept the answer. *)
Theorem unknown_verdicts (relevance hallucination usefulness : string)
    (documents : list dict) (question generation context : string) :
  relevance ≠ "yes" → hallucination ≠ "no" → usefulness ≠ "no" →
  doc_context documents = Ok context →
  returned (grade_documents_tool documents question (Some (grader_says relevance))) = Ok [] ∧
  returned (grade_answer_tool generation documents question
              (Some (grader_says hallucination)) (Some (grader_says usefulness)))
    = Ok "utile".
Proof.
  intros Hrel Hhal Huse Hctx. split.
  - unfold returned. rewrite grade_documents_run. simpl. f_equal. clear Hctx.
    induction documents as [|d documents IH]; [done|].
    rewrite filter_cons, decide_False; [by apply IH|].
    unfold keeps. simpl. apply String.eqb_neq in Hrel. rewrite Hrel.
    by destruct (truthy (doc_text d)).
  - unfold grade_answer_tool. unfold_M. rewrite Hctx. simpl.
    apply String.eqb_neq in Hhal, Huse. by rewrite Hhal, Huse.
Qed.

Lemma unknown_verdicts_witness :
  returned (grade_documents_tool [ {[ "content" := PyStr "Test document" ]} ]
              "Test question" (Some (grader_says "Yes"))) = Ok [] ∧
  returned (grade_answer_tool "Test answer" [ {[ "content" := PyStr "Test document" ]} ]
              "Test question" (Some (grader_says "No")) (Some (grader_says "No")))
    = Ok "utile".
Proof.
  apply (unknown_verdicts "Yes" "No" "No" [ {[ "content" := PyStr "Test document" ]} ]
           "Test question" "Test answer" "Test document");
    [discriminate|discriminate|discriminate|vm_compute; reflexivity].
Defined.

(** ** Grading an answer: what a verdict rests on *)

(** X11: [grade_answer_tool] raises nothing and asks the graders at most
    twice; its answer is one of "utile", "non utile" and "non supportato".
    "non supportato" is given only when the hallucination grader answered
    ['no'], and "non utile" only when the usefulness grader answered ['no']:
    no failure ever turns into a rejection. *)
Theorem grade_answer_verdicts (generation : string) (documents : list dict)
    (question : string) (h u : option Grader) :
  ∃ verdict calls,
    run (grade_answer_tool generation documents question h u) = (Ok verdict, calls) ∧
    verdict ∈ ["utile"; "non utile"; "non supportato"] ∧
    length calls ≤ 2 ∧
    (verdict = "non supportato" →
     ∃ hg context grade,
       h = Some hg ∧ doc_context documents = Ok context ∧
       grader_invoke hg (hallucination_input context generation) = Ok grade ∧
       binary_score grade = "no") ∧
    (verdict = "non utile" →
     ∃ ug grade,
       u = Some ug ∧
       grader_invoke ug (usefulness_input question generation) = Ok grade ∧
       binary_score grade = "no").
Proof.
  assert (∀ calls : list call, length calls ≤ 2 →
    ∃ verdict calls', (Ok "utile", calls) = (Ok verdict, calls') ∧
      verdict ∈ ["utile"; "non utile"; "non supportato"] ∧ length calls' ≤ 2 ∧
      (verdict = "non supportato" →
       ∃ hg context grade,
         h = Some hg ∧ doc_context documents = Ok context ∧
         grader_invoke hg (hallucination_input context generation) = Ok grade ∧
         binary_score grade = "no") ∧
      (verdict = "non utile" →
       ∃ ug grade,
         u = Some ug ∧
         grader_invoke ug (usefulness_input question generation) = Ok grade ∧
         binary_score grade = "no")) as Hutile.
  { intros calls Hlen. exists "utile", calls. split_and!; [done| |done|done|done].
    apply list_elem_of_here. }
  destruct h as [hg|], u as [ug|]; try (apply Hutile; simpl; lia).
  unfold grade_answer_tool. unfold_M.
  destruct (doc_context documents) as [context|e] eqn:Hctx; [|apply Hutile; simpl; lia].
  fold (hallucination_input context generation) (usefulness_input question generation).
  destruct (grader_invoke hg _) as [hgrade|e] eqn:Hh; [|apply Hutile; simpl; lia].
  destruct (String.eqb (binary_score hgrade) "no") eqn:Hno.
  - apply String.eqb_eq in Hno.
    exists "non supportato", [GraderInvoke (hallucination_input context generation)].
    split_and!; [done| |simpl; lia| |done].
    + do 2 apply list_elem_of_further. apply list_elem_of_here.
    + intros _. by exists hg, context, hgrade.
  - destruct (grader_invoke ug _) as [ugrade|e] eqn:Hu; [|apply Hutile; simpl; lia].
    destruct (String.eqb (binary_score ugrade) "no") eqn:Hno'; [|apply Hutile; simpl; lia].
    apply String.eqb_eq in Hno'.
    eexists "non utile", _. split_and!; [done| |simpl; lia|done|].
    + apply list_elem_of_further, list_elem_of_here.
    + intros _. by exists ug, ugrade.
Qed.

Lemma grade_answer_verdicts_witness :
  ∃ verdict,
    returned (grade_answer_tool "Test answer" [ {[ "content" := PyStr "Test document" ]} ]
                "Test question" (Some grader_raises) (Some (grader_says "no")))
      = Ok verdict ∧
    verdict ≠ "non supportato".
Proof.
  destruct (grade_answer_verdicts "Test answer" [ {[ "content" := PyStr "Test document" ]} ]
              "Test question" (Some grader_raises) (Some (grader_says "no")))
    as (verdict & calls & Hrun & _ & _ & Hunsupported & _).
  exists verdict. unfold returned. rewrite Hrun. split; [done|].
  intros Hverdict.
  destruct (Hunsupported Hverdict) as (hg & context & grade & [= <-] & _ & Hgrade & _).
  discriminate Hgrade.
Defined.

(** X12: every failure inside [grade_answer_tool] accepts the answer. It
    returns "utile" when the document context cannot be joined (no grader
    is asked), when the hallucination grader raises (the usefulness grader
    is not asked), and when the usefulness grader raises. *)
Theorem grade_answer_fail_open (generation : string) (documents : list dict)
    (question : string) (hg ug : Grader) :
  (∀ e, doc_context documents = Raise e →
     run (grade_answer_tool generation documents question (Some hg) (Some ug)) =
       (Ok "utile", [])) ∧
  (∀ context e, doc_context documents = Ok context →
     grader_invoke hg (hallucination_input context generation) = Raise e →
     run (grade_answer_tool generation documents question (Some hg) (Some ug)) =
       (Ok "utile", [GraderInvoke (hallucination_input context generation)])) ∧
  (∀ context grade e, doc_context documents = Ok context →
     grader_invoke hg (hallucination_input context generation) = Ok grade →
     binary_score grade ≠ "no" →
     grader_invoke ug (usefulness_input question generation) = Raise e →
     run (grade_answer_tool generation documents question (Some hg) (Some ug)) =
       (Ok "utile", [GraderInvoke (hallucination_input context generation);
                     GraderInvoke (usefulness_input question generation)])).
Proof.
  split_and!.
  - intros e Hctx. unfold grade_answer_tool. unfold_M. by rewrite Hctx.
  - intros context e Hctx Hh. unfold grade_answer_tool. unfold_M. rewrite Hctx.
    fold (hallucination_input context generation). by rewrite Hh.
  - intros context grade e Hctx Hh Hno Hu. unfold grade_answer_tool. unfold_M. rewrite Hctx.
    fold (hallucination_input context generation) (usefulness_input question generation).
    apply String.eqb_neq in Hno. by rewrite Hh, Hno, Hu.
Qed.

Lemma grade_answer_fail_open_witness :
  doc_context [ {[ "content" := PyInt 3 ]} ] = Raise (Exception "TypeError") ∧
  run (grade_answer_tool "Test answer" [ {[ "content" := PyInt 3 ]} ] "Test question"
         (Some (grader_says "no")) (Some (grader_says "no")))
    = (Ok "utile", []).
Proof.
  assert (doc_context [ {[ "content" := PyInt 3 ]} ] = Raise (Exception "TypeError")) as Hctx
    by (vm_compute; reflexivity).
  split; [exact Hctx|].
  exact (proj1 (grade_answer_fail_open "Test answer" [ {[ "content" := PyInt 3 ]} ]
                  "Test question" (grader_says "no") (grader_says "no")) _ Hctx).
Defined.

Lemma doc_texts_of_filter (documents : list dict) :
  filter (λ content, truthy content = true) (doc_text <$> filter has_text documents)
  = filter (λ content, truthy content = true) (doc_text <$> documents).
Proof.
  induction documents as [|d documents IH]; [done|].
  rewrite filter_cons. unfold has_text at 1. cbn [fmap list_fmap].
  destruct (decide (truthy (doc_text d) = true)) as [Hd|Hd].
  - cbn [fmap list_fmap]. rewrite !filter_cons, !decide_True by done.
    f_equal. apply IH.
  - rewrite filter_cons, decide_False by done. apply IH.
Qed.

(** X13: documents without text do not count in [grade_answer_tool]:
    leaving them out changes neither the answer nor what the graders are
    asked. *)
Theorem grade_answer_ignores_textless (generation : string) (documents : list dict)
    (question : string) (h u : option Grader) :
  run (grade_answer_tool generation (filter has_text documents) question h u)
  = run (grade_answer_tool generation documents question h u).
Proof.
  unfold grade_answer_tool, doc_context. by rewrite doc_texts_of_filter.
Qed.

End MoreToolsSpec.

(** * Further properties of the agent loop, of [ask] and of start-up *)

Module MoreChatbotSpec.
Import GraphNodes Chatbot Predicates Mocks MoreTools Startup MorePredicates.
Import GraphNodesSpec ChatbotSpec.

Section Rounds.

Variable llm : LLM.
Variable execute : ToolCall → string.
Variable question : string.

Lemma history_of_snoc responses m :
  history_of execute question (responses ++ [m]) =
  (history_of execute question responses ++ [m]) ++
  ((λ tc, ToolMessage (execute tc) (id tc) None) <$> tool_calls m).
Proof.
  unfold history_of, round. rewrite fmap_app, concat_app. simpl.
  by rewrite app_nil_r, <- !app_assoc.
Qed.

Lemma answered_by_snoc responses m :
  answered_by llm execute question responses →
  llm (length responses) (history_of execute question responses) = Ok m →
  answered_by llm execute question (responses ++ [m]).
Proof.
  intros Hans Hm i m' Hi.
  destruct (decide (i < length responses)) as [Hlt|Hge].
  - rewrite lookup_app_l in Hi by done. rewrite take_app_le by lia. by apply Hans.
  - rewrite lookup_app_r in Hi by lia.
    destruct (i - length responses) as [|k] eqn:Hk; simpl in Hi; [|done].
    injection Hi as <-. assert (i = length responses) as -> by lia.
    by rewrite take_app_length.
Qed.

(** After complete rounds the history waits for the model. *)
Lemma history_of_awaits responses :
  Forall requests_tools responses → awaits_model (history_of execute question responses).
Proof.
  destruct responses as [|r responses _] using rev_ind; intros Hall.
  - by exists (HumanMessage question None).
  - apply Forall_app in Hall as [_ Hr]. rewrite Forall_singleton in Hr.
    rewrite history_of_snoc. apply awaits_model_results. exact Hr.
Qed.

Lemma rounds_inv_entry : rounds_inv llm execute question (entry [HumanMessage question None]).
Proof.
  exists []. by split_and!.
Qed.

Lemma rounds_inv_step c c' :
  rounds_inv llm execute question c → steps_to llm execute c c' →
  rounds_inv llm execute question c'.
Proof.
  intros (responses & Hlen & Hans & Hshape) [Hnext Hstep].
  destruct (next c) eqn:Hc; [| |done].
  - destruct Hshape as [Hreq Hmsgs].
    destruct (agent_step llm execute c c' Hc Hstep) as (m & Hm & Hmsgs' & Hn & Hinv).
    rewrite Hmsgs, <- Hlen in Hm.
    exists (responses ++ [m]). split_and!.
    + rewrite length_app, Hinv. simpl. lia.
    + by apply answered_by_snoc.
    + rewrite Hn, Hmsgs', Hmsgs.
      destruct (add_message_cases (history_of execute question responses) m)
        as [[Hfresh ->]|(k & old & Hk & Hold & Hid & ->)].
      * rewrite tools_condition_snoc.
        destruct (tool_calls m) as [|tc tcs] eqn:Hcalls.
        -- exists responses, m. split_and!; [done|done|]. by left.
        -- exists responses, m. split_and!; try done.
           unfold requests_tools. by rewrite Hcalls.
      * rewrite (awaits_model_insert _ _ old);
          [|by apply history_of_awaits|done|congruence].
        exists responses, m. split_and!; [done|done|].
        right. by exists k, old.
  - destruct Hshape as (front & m & -> & Hreq & Hm & Hmsgs).
    destruct (tools_step llm execute c c' Hc Hstep)
      as (text & requests & mid & Hlast & Hmsgs' & Hn & Hinv).
    rewrite Hmsgs, last_snoc in Hlast. injection Hlast as ->.
    exists (front ++ [AIMessage text requests mid]). rewrite Hn, Hinv. split_and!; try done.
    + apply Forall_app. split; [done|]. by apply Forall_singleton.
    + by rewrite Hmsgs', Hmsgs, history_of_snoc.
Qed.

Lemma rounds_inv_reachable c :
  reachable llm execute (entry [HumanMessage question None]) c →
  rounds_inv llm execute question c.
Proof.
  induction 1 as [|c c' _ IH Hstep]; [apply rounds_inv_entry|].
  by apply (rounds_inv_step c).
Qed.

(** X14: the history a finished run returns. The model has given the
    responses [front] and then [m], each its answer, at its turn, to
    exactly the history before it, and every response of [front] requests
    a tool. Either [m] requests none and is new to the history: then the
    final history is the question, each response of [front] followed by
    one result message for each of its requests, in their order, and [m]
    at the end. Or [m] bears the identifier of a message of that history:
    then it has taken the place of that message, and the final history
    ends with what came before [m]. *)
Theorem finished_history_shape (final : list Message) :
  invoke llm execute [HumanMessage question None] = Ok final →
  ∃ front m,
    Forall requests_tools front ∧
    answered_by llm execute question (front ++ [m]) ∧
    ((terminal m ∧ fresh (history_of execute question front) m ∧
      final = history_of execute question front ++ [m]) ∨
     (∃ k old, history_of execute question front !! k = Some old ∧
               msg_id old = msg_id m ∧ msg_id m ≠ None ∧
               final = <[ k := m ]> (history_of execute question front))).
Proof.
  unfold invoke. cbn [add_messages foldl add_message msg_id app].
  destruct (run_from llm execute recursion_limit (entry [HumanMessage question None]))
    as [final'|e|c] eqn:Hrun; [|done..].
  intros [= ->].
  pose proof (run_from_reachable llm execute (entry [HumanMessage question None])
                recursion_limit _ (reachable_start _ _ _)) as Hreach.
  rewrite Hrun in Hreach. destruct Hreach as (c' & Hreach & Hend & <-).
  destruct (rounds_inv_reachable c' Hreach) as (responses & _ & Hans & Hshape).
  rewrite Hend in Hshape. destruct Hshape as (front & m & -> & Hreq & Hended).
  by exists front, m.
Qed.

End Rounds.

Lemma finished_history_shape_witness :
  ∃ front m,
    answered_by (scripted replacing_script) no_results "Test question" (front ++ [m]) ∧
    ((terminal m ∧ fresh (history_of no_results "Test question" front) m ∧
      [HumanMessage "Test question" None; AIMessage "Final answer" [] (Some "run-1");
       ToolMessage "[]" "call_1" None]
      = history_of no_results "Test question" front ++ [m]) ∨
     (∃ k old, history_of no_results "Test question" front !! k = Some old ∧
               msg_id old = msg_id m ∧ msg_id m ≠ None ∧
               [HumanMessage "Test question" None; AIMessage "Final answer" [] (Some "run-1");
                ToolMessage "[]" "call_1" None]
               = <[ k := m ]> (history_of no_results "Test question" front))).
Proof.
  assert (invoke (scripted replacing_script) no_results [HumanMessage "Test question" None]
          = Ok [HumanMessage "Test question" None; AIMessage "Final answer" [] (Some "run-1");
                ToolMessage "[]" "call_1" None]) as Hrun by (vm_compute; reflexivity).
  destruct (finished_history_shape (scripted replacing_script) no_results "Test question"
              _ Hrun) as (front & m & _ & Hans & Hshape).
  by exists front, m.
Defined.

(** ** [ask] on the workflow of [build_workflow] *)

Section AskRuns.

Variable execute : ToolCall → string.

(** [ask] on the workflow, by how the run ends. *)
Lemma ask_of_run llm question :
  ask (Some (Ok (build_workflow llm execute))) question =
  Some (Ok match invoke llm execute [HumanMessage question None] with
           | Ok final =>
               match last final with
               | Some m => PyStr (content m)
               | None => PyStr no_answer
               end
           | Raise _ => PyStr generic_error
           end).
Proof.
  unfold ask, try_partial. step. unfold build_workflow, dict_index.
  rewrite lookup_singleton_eq. cbn [mbind result_bind mapM as_message mret result_ret].
  destruct (invoke llm execute [HumanMessage question None]) as [final|e]; [|done].
  step. rewrite lookup_singleton_eq, fmap_last.
  by destruct (last final).
Qed.

Lemma invoke_of_run llm question :
  invoke llm execute [HumanMessage question None] =
  match run_from llm execute recursion_limit (entry [HumanMessage question None]) with
  | Finished final => Ok final
  | Failed e => Raise e
  | Running _ => Raise (Exception "GraphRecursionError")
  end.
Proof. reflexivity. Qed.

(** A script whose first thirteen responses request tools, with distinct
    identifiers: the run is cut off at the step limit. *)
Lemma scripted_run_cut question script :
  distinct_ids script → 13 ≤ length script → Forall requests_tools (take 13 script) →
  invoke (scripted script) execute [HumanMessage question None]
  = Raise (Exception "GraphRecursionError").
Proof.
  intros Hdistinct Hlen Hall.
  destruct (lookup_lt_is_Some_2 script 12) as [r Hr]; [lia|].
  assert (script = take 12 script ++ r :: drop 13 script) as Hscript.
  { rewrite <- (take_drop 12 script) at 1. f_equal. by apply drop_S. }
  assert (requests_tools r) as Hreq.
  { apply (Forall_lookup_1 _ _ 12 r Hall). rewrite lookup_take_lt by lia. done. }
  assert (Forall requests_tools (take 12 script)) as Hfront.
  { replace (take 12 script) with (take 12 (take 13 script))
      by (rewrite take_take; f_equal; lia).
    by apply Forall_take. }
  assert (length (take 12 script) = 12) as Htake by (rewrite length_take; lia).
  rewrite invoke_of_run, Hscript.
  rewrite Hscript in Hdistinct.
  destruct (scripted_run_rounds execute (take 12 script) [] [HumanMessage question None]
              (r :: drop 13 script) 1 Hfront Hdistinct (ids_from_entry question))
    as (history & Hids & Hrun).
  rewrite Htake in Hrun. cbn [app length] in Hrun, Hids.
  change (2 * 12 + 1) with recursion_limit in Hrun. unfold entry. rewrite Hrun.
  destruct (tool_calls_nonempty r Hreq) as (text & requests & mid & -> & Hrequests).
  cbn [run_from next]. unfold superstep, agent_node. cbn [next messages invocations].
  replace (0 + 12) with (length (take 12 script)) by (rewrite Htake; lia).
  rewrite scripted_lookup.
  cbn [mbind result_bind mret result_ret add_messages foldl].
  rewrite (add_message_fresh history) by (by eapply script_fresh).
  rewrite tools_condition_snoc. cbn [tool_calls]. by destruct requests.
Qed.


(** X16: [ask] on the workflow, against a model whose every response
    requests a tool, with distinct identifiers: whether the list of
    responses runs out, so that the next invocation raises, or the step
    limit comes first, [ask] returns the fixed error text. *)
Theorem ask_on_exhausted_script (question : string) (script : list Message) :
  distinct_ids script →
  Forall requests_tools script →
  ask (Some (Ok (build_workflow (scripted script) execute))) question
  = Some (Ok (PyStr generic_error)).
Proof.
  intros Hdistinct Hall. rewrite ask_of_run.
  destruct (decide (13 ≤ length script)) as [Hlong|Hshort].
  - rewrite scripted_run_cut; [done|done|done|by apply Forall_take].
  - rewrite invoke_of_run.
    destruct (scripted_run_rounds execute script [] [HumanMessage question None] [] 1)
      as (history & _ & Hrun); [done|by rewrite app_nil_r|apply ids_from_entry|].
    rewrite app_nil_r in Hrun. cbn [app length] in Hrun.
    assert (run_from (scripted script) execute 1
              {| next := agent; messages := history; invocations := 0 + length script |}
            = Failed (Exception "StopIteration")) as Hstop.
    { cbn [run_from next]. unfold superstep, agent_node, scripted.
      cbn [next messages invocations]. by rewrite lookup_ge_None_2 by lia. }
    rewrite Hstop in Hrun.
    replace recursion_limit with (2 * length script + 1 + (recursion_limit - (2 * length script + 1)))
      by (unfold recursion_limit; lia).
    unfold entry. by rewrite (run_from_failed_more_budget _ _ _ _ _ _ Hrun).
Qed.

(** X21: the step limit shapes the answer. Against a model whose first
    thirteen responses all request tools, with distinct identifiers, the
    run is cut off before a fourteenth invocation: [app.invoke] raises
    [GraphRecursionError] and [ask] returns the fixed error text, whatever
    the responses after the thirteenth are. *)
Theorem ask_cut_at_step_limit (question : string) (script : list Message) :
  distinct_ids script → 13 ≤ length script → Forall requests_tools (take 13 script) →
  invoke (scripted script) execute [HumanMessage question None]
    = Raise (Exception "GraphRecursionError") ∧
  ask (Some (Ok (build_workflow (scripted script) execute))) question
    = Some (Ok (PyStr generic_error)).
Proof.
  intros Hdistinct Hlen Hall.
  pose proof (scripted_run_cut question script Hdistinct Hlen Hall) as Hcut.
  split; [done|]. by rewrite ask_of_run, Hcut.
Qed.



End AskRuns.



Lemma ask_on_exhausted_script_witness :
  distinct_ids (take 2 adaptive_script) ∧
  Forall requests_tools (take 2 adaptive_script) ∧
  ask (Some (Ok (build_workflow (scripted (take 2 adaptive_script)) no_results)))
      "What are the rules?"
  = Some (Ok (PyStr generic_error)).
Proof.
  assert (distinct_ids (take 2 adaptive_script)) as Hdistinct by apply NoDup_nil_2.
  assert (Forall requests_tools (take 2 adaptive_script)) as Hall
    by (repeat constructor; discriminate).
  split; [exact Hdistinct|]. split; [exact Hall|].
  exact (ask_on_exhausted_script no_results "What are the rules?" (take 2 adaptive_script)
           Hdistinct Hall).
Defined.

Lemma ask_cut_at_step_limit_witness :
  distinct_ids long_script ∧
  Forall requests_tools (take 13 long_script) ∧
  ask (Some (Ok (build_workflow (scripted long_script) no_results))) "Test question"
    = Some (Ok (PyStr generic_error)).
Proof.
  assert (distinct_ids long_script) as Hdistinct by apply NoDup_nil_2.
  assert (13 ≤ length long_script) as Hlen by (simpl; lia).
  assert (Forall requests_tools (take 13 long_script)) as Hall
    by (repeat constructor; discriminate).
  split; [exact Hdistinct|]. split; [exact Hall|].
  exact (proj2 (ask_cut_at_step_limit no_results "Test question" long_script
                  Hdistinct Hlen Hall)).
Defined.

(** ** Start-up *)

Lemma labels_read (records : list dict) :
  Forall (λ r : dict, is_Some (r !! "label")) records →
  ∃ labels, mapM (λ record : dict, dict_index record "label") records = Ok labels.
Proof.
  induction 1 as [|r records [label Hr] _ [labels IH]]; [by eexists|].
  assert (dict_index r "label" = Ok label) as Hlabel
    by (unfold dict_index; by rewrite Hr).
  cbn [mapM]. rewrite Hlabel, IH. by eexists.
Qed.

Lemma labels_missing (records : list dict) (r : dict) :
  r ∈ records → r !! "label" = None →
  ∃ e, mapM (λ record : dict, dict_index record "label") records = Raise e.
Proof.
  intros Hin Hr. induction records as [|r' records IH]; [by apply elem_of_nil in Hin|].
  cbn [mapM].
  destruct (dict_index r' "label") as [label|e] eqn:Hr'; [|by eexists].
  apply elem_of_cons in Hin as [->|Hin].
  - unfold dict_index in Hr'. by rewrite Hr in Hr'.
  - destruct (IH Hin) as [e ->]. by eexists.
Qed.

Lemma second_attempt factory graph log :
  second_attempt_raises factory graph →
  ∃ e log',
    (result ← call_graph graph labels_query ∅;
     all_labels ← pure (mapM (λ record : dict, dict_index record "label") result);
     vector_store ← pure (from_existing_graph factory);
     mret (Some vector_store)) log = (Raise e, log').
Proof.
  unfold_M. intros [[e He]|[(records & r & Hq & Hin & Hr)|[e He]]].
  - rewrite He. by eexists _, _.
  - rewrite Hq. destruct (labels_missing records r Hin Hr) as [e ->]. by eexists _, _.
  - destruct (query graph labels_query ∅) as [records|e']; [|by eexists _, _].
    destruct (mapM _ records); [|by eexists _, _]. rewrite He. by eexists _, _.
Qed.

(** X17: the start-up of the vector store raises nothing and takes the
    first attempt that works: the hybrid index (then the graph is not
    asked for its labels), else the store built from the graph once every
    record of the labels query has a [label], else the basic index when
    the second attempt raises. [self.vector_store] is [None] only when the
    hybrid index and the basic index both raise. *)
Theorem vector_store_fallback (factory : Neo4jVectorFactory) (graph : Neo4jGraph) :
  ∃ store,
    returned (init_vector_store factory graph) = Ok store ∧
    (∀ vs, from_existing_index_hybrid factory = Ok vs →
       store = Some vs ∧ calls_of (init_vector_store factory graph) = []) ∧
    (∀ e records vs, from_existing_index_hybrid factory = Raise e →
       query graph labels_query ∅ = Ok records →
       Forall (λ r : dict, is_Some (r !! "label")) records →
       from_existing_graph factory = Ok vs →
       store = Some vs) ∧
    (∀ e vs, from_existing_index_hybrid factory = Raise e →
       second_attempt_raises factory graph →
       from_existing_index_basic factory = Ok vs →
       store = Some vs) ∧
    (∀ e e3, from_existing_index_hybrid factory = Raise e →
       second_attempt_raises factory graph →
       from_existing_index_basic factory = Raise e3 →
       store = None) ∧
    (store = None →
     (∃ e, from_existing_index_hybrid factory = Raise e) ∧
     (∃ e, from_existing_index_basic factory = Raise e)).
Proof.
  unfold init_vector_store, returned, calls_of, run.
  unfold try_catch at 1. unfold mbind at 1, M_bind. unfold pure at 1.
  destruct (from_existing_index_hybrid factory) as [vs1|e1] eqn:H1.
  { exists (Some vs1). unfold mret, M_ret. simpl.
    split_and!; try done. by intros vs [= <-]. }
  unfold try_catch at 1.
  set (attempt := (result ← call_graph graph labels_query ∅;
                   all_labels ← pure (mapM (λ record : dict, dict_index record "label") result);
                   vector_store ← pure (from_existing_graph factory);
                   mret (Some vector_store))).
  destruct (attempt []) as [[store|e2] log] eqn:H2.
  - (* the second attempt returned *)
    assert (¬ second_attempt_raises factory graph) as Hno.
    { intros Hraises. destruct (second_attempt factory graph [] Hraises) as (e & log' & He).
      unfold attempt in H2. pose proof (eq_trans (eq_sym H2) He) as Hbad.
      discriminate Hbad. }
    exists store. simpl. split_and!; try done.
    + intros e records vs _ Hq Hall Hvs. subst attempt. revert H2. unfold_M.
      rewrite Hq. destruct (labels_read records Hall) as [labels ->]. rewrite Hvs.
      by intros [= <- _].
    + intros Hnone. subst attempt. revert H2. unfold_M.
      destruct (query graph labels_query ∅) as [records|e]; [|done].
      destruct (mapM _ records); [|done].
      destruct (from_existing_graph factory); [|done]. rewrite Hnone. done.
  - (* the second attempt raised *)
    unfold try_catch, pure. unfold mbind, M_bind.
    destruct (from_existing_index_basic factory) as [vs3|e3] eqn:H3; simpl.
    + exists (Some vs3). split_and!; try done.
      * intros e records vs _ Hq Hall Hvs. subst attempt. revert H2. unfold_M.
        rewrite Hq. destruct (labels_read records Hall) as [labels ->]. by rewrite Hvs.
      * by intros e vs _ _ [= <-].
    + exists None. split_and!; try done; [|by eauto].
      intros e records vs _ Hq Hall Hvs. subst attempt. revert H2. unfold_M.
      rewrite Hq. destruct (labels_read records Hall) as [labels ->]. by rewrite Hvs.
Qed.

Lemma vector_store_fallback_witness :
  let factory := {| from_existing_index_hybrid := Raise (Exception "Exception");
                    from_existing_graph := Ok (vector_store_returning [doc1]);
                    from_existing_index_basic := Raise (Exception "Exception") |} in
  let graph := graph_returning [ {[ "name" := PyStr "no label here" ]} ] in
  second_attempt_raises factory graph ∧
  returned (init_vector_store factory graph) = Ok None.
Proof.
  intros factory graph.
  assert (second_attempt_raises factory graph) as Hsecond.
  { right. left. exists [ {[ "name" := PyStr "no label here" ]} ], {[ "name" := PyStr "no label here" ]}.
    split_and!; [reflexivity|apply list_elem_of_here|reflexivity]. }
  split; [exact Hsecond|].
  destruct (vector_store_fallback factory graph) as (store & -> & _ & _ & _ & Hnone & _).
  f_equal.
  exact (Hnone (Exception "Exception") (Exception "Exception") eq_refl Hsecond eq_refl).
Defined.

(** X18: a chatbot that starts with no working vector index and an empty
    [TAVILY_API_KEY] still answers its search tools: for every query,
    hybrid search and web search return the empty list and call no
    service. *)
Theorem unconfigured_startup_degrades (factory : Neo4jVectorFactory)
    (graph : Neo4jGraph) (new_client : string → TavilyClient) (q : string) :
  (∃ e, from_existing_index_hybrid factory = Raise e) →
  second_attempt_raises factory graph →
  (∃ e, from_existing_index_basic factory = Raise e) →
  returned (init_vector_store factory graph) = Ok None ∧
  (∀ store, returned (init_vector_store factory graph) = Ok store →
            run (hybrid_search_tool store (Some graph) q) = (Ok [], [])) ∧
  run (web_search_tool (init_tavily_client new_client "") q) = (Ok [], []).
Proof.
  intros [e1 H1] Hsecond [e3 H3].
  assert (returned (init_vector_store factory graph) = Ok None) as Hnone;
    [|split; [done|]; split; [|done]; rewrite Hnone; by intros store [= <-]].
  unfold init_vector_store, returned, run.
  unfold try_catch at 1. unfold mbind at 1, M_bind. unfold pure at 1. rewrite H1.
  unfold try_catch at 1.
  set (attempt := (result ← call_graph graph labels_query ∅;
                   all_labels ← pure (mapM (λ record : dict, dict_index record "label") result);
                   vector_store ← pure (from_existing_graph factory);
                   mret (Some vector_store))).
  destruct (second_attempt factory graph [] Hsecond) as (e2 & log & He).
  destruct (attempt []) as [[store|e2'] log'] eqn:H2.
  - unfold attempt in H2. pose proof (eq_trans (eq_sym H2) He) as Hbad. discriminate Hbad.
  - unfold_M. by rewrite H3.
Qed.

Lemma unconfigured_startup_degrades_witness :
  let factory := {| from_existing_index_hybrid := Raise (Exception "Exception");
                    from_existing_graph := Raise (Exception "Exception");
                    from_existing_index_basic := Raise (Exception "Exception") |} in
  returned (init_vector_store factory graph_raising) = Ok None.
Proof.
  intros factory.
  assert (∃ e, from_existing_index_hybrid factory = Raise e) as H1
    by (by exists (Exception "Exception")).
  assert (second_attempt_raises factory graph_raising) as H2
    by (left; by exists (Exception "Exception")).
  assert (∃ e, from_existing_index_basic factory = Raise e) as H3
    by (by exists (Exception "Exception")).
  destruct (unconfigured_startup_degrades factory graph_raising
              (λ _, tavily_raising) "Test question" H1 H2 H3)
    as [Hnone _].
  exact Hnone.
Defined.

(** ** The command-line session *)

Section MainSpec.

Variable strip lower : string → string.
Variable chatbot_ask : string → string.

Lemma asked_repl inputs :
  ∀ question, question ∈ asked (repl strip lower chatbot_ask inputs) →
    question ≠ "" ∧
    ∃ text, Line text ∈ inputs ∧ question = strip text ∧ ¬ exits strip lower text.
Proof.
  induction inputs as [|[text|] inputs IH]; intros question; cbn [repl].
  - cbn. intros Hin. by apply elem_of_nil in Hin.
  - unfold exits. destruct (bool_decide_reflect (lower (strip text) ∈ ["esci"; "exit"; "quit"]))
      as [Hexit|Hstay].
    + cbn. intros Hin. by apply elem_of_nil in Hin.
    + destruct (String.eqb (strip text) "") eqn:Hblank; cbn [negb asked omap].
      * intros Hin. destruct (IH question Hin) as (Hne & text' & Hin' & -> & Hstay').
        split; [done|]. exists text'. split; [by apply list_elem_of_further|done].
      * apply String.eqb_neq in Hblank. intros Hin.
        apply elem_of_cons in Hin as [->|Hin].
        -- split; [done|]. exists text. split; [apply list_elem_of_here|done].
        -- destruct (IH question Hin) as (Hne & text' & Hin' & -> & Hstay').
           split; [done|]. exists text'. split; [by apply list_elem_of_further|done].
  - cbn. intros Hin. by apply elem_of_nil in Hin.
Qed.

Lemma answers_follow inputs :
  ∀ i question, repl strip lower chatbot_ask inputs !! i = Some (Ask question) →
    repl strip lower chatbot_ask inputs !! S i
    = Some (Print (answer_prefix +:+ chatbot_ask question)).
Proof.
  induction inputs as [|[text|] inputs IH]; intros i question; cbn [repl].
  - by destruct i as [|[|i]].
  - destruct (bool_decide (lower (strip text) ∈ ["esci"; "exit"; "quit"])).
    + by destruct i as [|i].
    + destruct (negb (String.eqb (strip text) "")).
      * destruct i as [|[|[|i]]]; cbn; [done| |done|apply IH].
        by intros [= <-].
      * destruct i as [|[|i]]; cbn; [done|done|apply IH].
  - by destruct i as [|[|i]].
Qed.

(** X19: in a session of [main], [ask] is never called with an empty
    question: every question asked is the stripped text of an input line,
    is not empty and is not an exit word. The answer to a question is
    printed right after it is asked, and whatever ends the session (an
    exit word, an interrupt, the end of input) the chatbot is closed
    last. *)
Theorem main_asks_real_questions (inputs : list stdin_event) :
  (∀ question, question ∈ asked (main strip lower chatbot_ask inputs) →
     question ≠ "" ∧
     ∃ text, Line text ∈ inputs ∧ question = strip text ∧ ¬ exits strip lower text) ∧
  (∀ i question, main strip lower chatbot_ask inputs !! i = Some (Ask question) →
     main strip lower chatbot_ask inputs !! S i
     = Some (Print (answer_prefix +:+ chatbot_ask question))) ∧
  last (main strip lower chatbot_ask inputs) = Some Close.
Proof.
  unfold main. split_and!.
  - intros question. unfold asked. rewrite !omap_app. cbn [omap]. rewrite app_nil_r.
    apply asked_repl.
  - intros [|[|i]] question Hi; [by cbn in Hi|by cbn in Hi|].
    change ((repl strip lower chatbot_ask inputs ++ [Close]) !! i = Some (Ask question)) in Hi.
    change ((repl strip lower chatbot_ask inputs ++ [Close]) !! S i
            = Some (Print (answer_prefix +:+ chatbot_ask question))).
    apply lookup_app_Some in Hi as [Hi|[_ Hi]].
    + rewrite lookup_app_l; [by apply answers_follow|].
      apply answers_follow in Hi. by apply lookup_lt_Some in Hi.
    + destruct (i - length (repl strip lower chatbot_ask inputs)) as [|k]; by cbn in Hi.
  - by rewrite app_assoc, last_snoc.
Qed.

Lemma stops_reading before after stop :
  (∀ rest, repl strip lower chatbot_ask (stop :: rest) = repl strip lower chatbot_ask [stop]) →
  repl strip lower chatbot_ask (before ++ stop :: after)
  = repl strip lower chatbot_ask (before ++ [stop]).
Proof.
  intros Hstop. induction before as [|[text|] before IH]; cbn [app].
  - apply Hstop.
  - cbn [repl]. by rewrite IH.
  - done.
Qed.

(** X20: an exit word ends the session: the lines after it are not read,
    so no question after it is asked and nothing after it is printed. The
    same holds at a keyboard interrupt. *)
Theorem main_stops_reading (before after : list stdin_event) (text : string) :
  (exits strip lower text →
   main strip lower chatbot_ask (before ++ Line text :: after)
   = main strip lower chatbot_ask (before ++ [Line text])) ∧
  main strip lower chatbot_ask (before ++ KeyboardInterrupt :: after)
  = main strip lower chatbot_ask (before ++ [KeyboardInterrupt]).
Proof.
  unfold main. split.
  - intros Hexit. rewrite stops_reading; [done|].
    intros rest. cbn [repl]. unfold exits in Hexit. by rewrite !bool_decide_eq_true_2.
  - by rewrite stops_reading.
Qed.

End MainSpec.

Lemma main_asks_real_questions_witness :
  main (λ s, s) (λ s, s) (λ _, "answer") [Line ""; Line "What is GDPR?"; Line "exit"; Line "more"]
  !! 6 = Some (Print (answer_prefix +:+ "answer")).
Proof.
  apply (proj1 (proj2 (main_asks_real_questions (λ s, s) (λ s, s) (λ _, "answer")
                         [Line ""; Line "What is GDPR?"; Line "exit"; Line "more"]))
           5 "What is GDPR?").
  reflexivity.
Defined.

Lemma main_stops_reading_witness :
  exits (λ s, s) (λ s, s) "exit" ∧
  main (λ s, s) (λ s, s) (λ _, "answer") ([Line "What is GDPR?"] ++ Line "exit" :: [Line "more"])
  = main (λ s, s) (λ s, s) (λ _, "answer") ([Line "What is GDPR?"] ++ [Line "exit"]).
Proof.
  assert (exits (λ s, s) (λ s, s) "exit") as Hexit
    by (apply list_elem_of_further, list_elem_of_here).
  split; [exact Hexit|].
  exact (proj1 (main_stops_reading (λ s, s) (λ s, s) (λ _, "answer")
                  [Line "What is GDPR?"] [Line "more"] "exit") Hexit).
Defined.

End MoreChatbotSpec.

(** * Properties of the ingestion *)

Module IngestSpec.
Import MoreTools MorePredicates Ingest.

Ltac unfold_I :=
  cbv [ingest_run mbind mret I_bind I_ret try_ingest place lift].

(** ** From the extracted graph to the graph document *)

Lemma node_map_snoc nodes node :
  node_map (nodes ++ [node]) = <[ node_id node := node ]> (node_map nodes).
Proof. unfold node_map. by rewrite foldl_app. Qed.

Lemma node_map_lookup nodes : ∀ k node,
  node_map nodes !! k = Some node → node_id node = k ∧ last_with_id nodes node.
Proof.
  induction nodes as [|x nodes IH] using rev_ind; intros k node; [done|].
  rewrite node_map_snoc. destruct (decide (node_id x = k)) as [<-|Hne].
  - rewrite lookup_insert_eq. intros [= <-]. split; [done|].
    exists nodes, []. split; [done|]. apply not_elem_of_nil.
  - rewrite lookup_insert_ne by done. intros Hnode.
    destruct (IH k node Hnode) as (<- & before & after & -> & Hlast). split; [done|].
    exists before, (after ++ [x]). split; [by rewrite <- app_assoc|].
    rewrite fmap_app, elem_of_app. intros [Hin|Hin]; [done|].
    apply list_elem_of_singleton in Hin. congruence.
Qed.

Lemma node_map_is_Some nodes k :
  is_Some (node_map nodes !! k) ↔ k ∈ (node_id <$> nodes).
Proof.
  induction nodes as [|x nodes IH] using rev_ind.
  - split; [by intros [? ?]|intros Hin; by apply elem_of_nil in Hin].
  - rewrite node_map_snoc, fmap_app, elem_of_app. cbn [fmap list_fmap].
    rewrite list_elem_of_singleton. destruct (decide (node_id x = k)) as [<-|Hne].
    + rewrite lookup_insert_eq. split; [by right|by eexists].
    + rewrite lookup_insert_ne by done. rewrite IH. split; [by left|].
      by intros [Hin|Heq].
Qed.

Lemma last_with_id_elem nodes node : last_with_id nodes node → node ∈ nodes.
Proof.
  intros (before & after & -> & _). apply elem_of_app. right. apply list_elem_of_here.
Qed.

Lemma node_ids kg chunk_id source_document :
  node_id <$> (node_of chunk_id source_document <$> entities kg) = e_id <$> entities kg.
Proof. rewrite <- list_fmap_compose. by apply list_fmap_ext. Qed.

(** X23: [convert_to_graph_document] always returns a graph document. It
    has one node for each entity, in order and with the entity's id; every
    edge joins two nodes of the document (no edge dangles), and when
    several entities share an id an edge is attached to the last of them;
    every node and every edge carries the chunk id and the source
    document. *)
Theorem graph_document_integrity (kg : KnowledgeGraph) (chunk_id source_document : string) :
  ∃ gd,
    convert_to_graph_document kg chunk_id source_document = Some gd ∧
    node_id <$> nodes gd = e_id <$> entities kg ∧
    (∀ edge, edge ∈ edges gd →
       source edge ∈ nodes gd ∧ target edge ∈ nodes gd ∧
       last_with_id (nodes gd) (source edge) ∧ last_with_id (nodes gd) (target edge)) ∧
    (∀ node, node ∈ nodes gd → stamped chunk_id source_document (properties node)) ∧
    (∀ edge, edge ∈ edges gd → stamped chunk_id source_document (edge_properties edge)).
Proof.
  eexists. split; [reflexivity|]. cbn [nodes edges]. split_and!.
  - apply node_ids.
  - intros edge Hin. apply list_elem_of_omap in Hin as (rel & _ & Hedge).
    unfold edge_of in Hedge.
    destruct (node_map _ !! source_entity_id rel) as [s|] eqn:Hs; [|done].
    destruct (node_map _ !! target_entity_id rel) as [t|] eqn:Ht; [|done].
    injection Hedge as <-. cbn [source target].
    apply node_map_lookup in Hs as [_ Hs]. apply node_map_lookup in Ht as [_ Ht].
    split_and!; [by apply last_with_id_elem|by apply last_with_id_elem|done|done].
  - intros node Hin. apply list_elem_of_fmap in Hin as (entity & -> & _).
    unfold stamped, node_of. cbn [properties]. by simplify_map_eq.
  - intros edge Hin. apply list_elem_of_omap in Hin as (rel & _ & Hedge).
    unfold edge_of in Hedge.
    destruct (node_map _ !! source_entity_id rel) as [s|]; [|done].
    destruct (node_map _ !! target_entity_id rel) as [t|]; [|done].
    injection Hedge as <-. unfold stamped. cbn [edge_properties]. by simplify_map_eq.
Qed.

Lemma graph_document_integrity_witness :
  let doc := {| e_id := "entity_1"; e_type := "Provvedimento"; e_name := "Test Doc";
                e_description := Some "A test document";
                e_publication_date := Some "2024-01-01";
                e_document_type := Some "Provvedimento"; e_reference_number := Some "123" |} in
  let kg := {| entities := [doc];
               relationships := [ {| r_id := "rel_1"; source_entity_id := "entity_1";
                                     target_entity_id := "entity_2"; r_type := "CITA";
                                     r_description := None |} ] |} in
  ∃ gd, convert_to_graph_document kg "test_chunk_1" "test_document.pdf" = Some gd ∧
        length (nodes gd) = 1 ∧ edges gd = [].
Proof.
  intros doc kg.
  destruct (graph_document_integrity kg "test_chunk_1" "test_document.pdf")
    as (gd & Hgd & Hids & _).
  exists gd. split; [exact Hgd|].
  split; [by rewrite <- (length_fmap node_id), Hids|].
  by injection Hgd as <-.
Defined.

Lemma omap_step {A B} (f : A → option B) (x : A) (l : list A) :
  omap f (x :: l) = match f x with Some y => y :: omap f l | None => omap f l end.
Proof. done. Qed.

Lemma edge_of_linked kg chunk_id source_document rel :
  match edge_of chunk_id source_document
          (node_map (node_of chunk_id source_document <$> entities kg)) rel with
  | Some edge => linked kg rel ∧ edge_key edge = rel_key rel
  | None => ¬ linked kg rel
  end.
Proof.
  pose proof (node_map_is_Some (node_of chunk_id source_document <$> entities kg)
                (source_entity_id rel)) as Hs.
  pose proof (node_map_is_Some (node_of chunk_id source_document <$> entities kg)
                (target_entity_id rel)) as Ht.
  rewrite node_ids in Hs, Ht. unfold edge_of, linked.
  destruct (node_map _ !! source_entity_id rel) as [s|] eqn:Hsl.
  - destruct (node_map _ !! target_entity_id rel) as [t|] eqn:Htl.
    + split; [split; [by apply Hs|by apply Ht]|].
      apply node_map_lookup in Hsl as [Hsid _]. apply node_map_lookup in Htl as [Htid _].
      unfold edge_key, rel_key. cbn [source target edge_type]. by rewrite Hsid, Htid.
    + intros [_ Hin]. apply Ht in Hin as [? ?]. done.
  - intros [Hin _]. apply Hs in Hin as [? ?]. done.
Qed.

Lemma edges_of_linked kg chunk_id source_document (rels : list Relationship) :
  edge_key <$> omap (edge_of chunk_id source_document
                       (node_map (node_of chunk_id source_document <$> entities kg))) rels
  = rel_key <$> filter (linked kg) rels.
Proof.
  induction rels as [|rel rels IH]; [done|].
  rewrite omap_step, filter_cons.
  pose proof (edge_of_linked kg chunk_id source_document rel) as Hrel.
  destruct (edge_of _ _ _ rel) as [edge|].
  - destruct Hrel as [Hlinked Hkey]. rewrite decide_True by done.
    rewrite !fmap_cons. by rewrite Hkey, IH.
  - by rewrite decide_False.
Qed.

(** X24: a relationship becomes an edge exactly when both its ends are ids
    of entities of the same extraction: the edges of the graph document
    are, in order, the relationships with both ends among the entities,
    with the same ends and type; a relationship with an unknown end is
    left out without an error. *)
Theorem relationships_kept_iff_linked (kg : KnowledgeGraph)
    (chunk_id source_document : string) :
  ∃ gd,
    convert_to_graph_document kg chunk_id source_document = Some gd ∧
    edge_key <$> edges gd = rel_key <$> filter (linked kg) (relationships kg).
Proof.
  eexists. split; [reflexivity|]. cbn [edges]. apply edges_of_linked.
Qed.

(** ** Extraction and storage *)

Lemma extract_run self text log :
  extract_knowledge_graph self text log = (Ok (extracted self text), log ++ [ExtractionInvoke text]).
Proof.
  unfold extract_knowledge_graph, extracted. unfold_I.
  destruct (extraction_invoke self text) as [[kg|v]|e]; [done| |done].
  destruct v as [| | | | |d]; try done.
  by destruct (validate self d).
Qed.

(** The documents to embed: one for each described node when all their
    descriptions are strings, none at all otherwise. *)
Lemma new_documents (l : list Node) :
  let build := λ node, new_document (dict_get (properties node) "description" (PyStr ""))
                                    (properties node) in
  (Forall (λ node, described node →
                   is_str (dict_get (properties node) "description" (PyStr ""))) l ∧
   mapM build (filter described l) = Ok (embedding_of <$> filter described l)) ∨
  (Exists (λ node, described node ∧
                   ¬ is_str (dict_get (properties node) "description" (PyStr ""))) l ∧
   ∃ e, mapM build (filter described l) = Raise e).
Proof.
  intros build. induction l as [|node l IH]; [left; by split|].
  rewrite filter_cons. destruct (decide (described node)) as [Hnode|Hnode].
  - assert (∀ rest, mapM build (node :: rest) =
                    doc ← new_document (dict_get (properties node) "description" (PyStr ""))
                                       (properties node);
                    docs ← mapM build rest; mret (doc :: docs)) as Hcons by reflexivity.
    rewrite Hcons. unfold embedding_of at 1.
    destruct (dict_get (properties node) "description" (PyStr "")) as [| | |text| |] eqn:Htext;
      try (right; split;
           [apply Exists_cons_hd; split; [done|rewrite Htext; by intros [? ?]]
           |by eexists]).
    destruct IH as [[Hall Hdocs]|[Hsome [e Hraise]]].
    + left. split.
      * apply Forall_cons. split; [|done]. intros _. rewrite Htext. by eexists.
      * simpl. rewrite Hdocs. simpl. unfold embedding_of at 1. by rewrite Htext.
    + right. split; [by apply Exists_cons_tl|].
      simpl. rewrite Hraise. by eexists.
  - destruct IH as [[Hall Hdocs]|[Hsome Hraise]].
    + left. split; [|done]. apply Forall_cons. by split.
    + right. split; [by apply Exists_cons_tl|done].
Qed.

Lemma embeddable_Forall gd :
  embeddable gd ↔
  Forall (λ node, described node →
                  is_str (dict_get (properties node) "description" (PyStr ""))) (nodes gd).
Proof. unfold embeddable. rewrite Forall_forall. done. Qed.

Lemma store_run self gd log :
  embeddable gd →
  store_graph_and_embeddings self (Some gd) log =
  (Ok (),
   log ++ AddGraphDocuments [gd] ::
     match add_graph_documents self [gd], embedding_of <$> filter described (nodes gd) with
     | Ok _, (_ :: _) as docs => [AddDocuments docs]
     | _, _ => []
     end).
Proof.
  intros Hgd. unfold store_graph_and_embeddings. unfold_I.
  change (filter (λ node : Node, truthy (dict_get (properties node) "description" PyNone)
                                 = true) (nodes gd))
    with (filter described (nodes gd)).
  destruct (new_documents (nodes gd)) as [[_ Hdocs]|[Hsome _]].
  - cbn zeta in Hdocs. rewrite Hdocs.
    destruct (add_graph_documents self [gd]) as [[]|e].
    + destruct (embedding_of <$> filter described (nodes gd)) as [|doc docs] eqn:Hembed.
      * done.
      * destruct (add_documents self (doc :: docs)) as [[]|e]; by rewrite <- app_assoc.
    + by destruct (embedding_of <$> filter described (nodes gd)).
  - exfalso. apply embeddable_Forall in Hgd.
    apply Exists_exists in Hsome as (node & Hin & Hnode & Hstr).
    rewrite Forall_forall in Hgd. by apply Hstr, Hgd.
Qed.

Lemma store_run_invalid self gd log :
  ¬ embeddable gd → store_graph_and_embeddings self (Some gd) log = (Ok (), log).
Proof.
  intros Hgd. unfold store_graph_and_embeddings. unfold_I.
  change (filter (λ node : Node, truthy (dict_get (properties node) "description" PyNone)
                                 = true) (nodes gd))
    with (filter described (nodes gd)).
  destruct (new_documents (nodes gd)) as [[Hall _]|[_ [e Hraise]]].
  - exfalso. by apply Hgd, embeddable_Forall.
  - cbn zeta in Hraise. by rewrite Hraise.
Qed.

(** A graph document is embeddable or it is not. *)
Lemma embeddable_or_not gd : embeddable gd ∨ ¬ embeddable gd.
Proof.
  destruct (new_documents (nodes gd)) as [[Hall _]|[Hsome _]].
  - left. by apply embeddable_Forall.
  - right. intros Hgd. apply embeddable_Forall in Hgd.
    apply Exists_exists in Hsome as (node & Hin & Hnode & Hstr).
    rewrite Forall_forall in Hgd. by apply Hstr, Hgd.
Qed.

(** What [convert_to_graph_document] builds is embeddable. *)
Lemma converted_embeddable kg chunk_id source_document gd :
  convert_to_graph_document kg chunk_id source_document = Some gd → embeddable gd.
Proof.
  intros [= <-] node Hin _. simpl in Hin.
  apply list_elem_of_fmap in Hin as (entity & -> & _).
  exists (default "" (e_description entity)).
  unfold dict_get, node_of. simpl.
  rewrite lookup_insert_ne by done. by rewrite lookup_insert_eq.
Qed.

(** X25: [store_graph_and_embeddings] raises nothing. Without a graph
    document no service is called. When a node has a description that is
    not a string, building the documents to embed fails before anything
    is stored, and no service is called either. Otherwise the graph is
    written before the embeddings: the graph document is stored first;
    embeddings are added only after the graph store accepted it, only for
    the nodes whose description is not empty, and never as an empty
    batch. *)
Theorem store_graph_then_embeddings (self : GraphRAGIngestor) (gd : GraphDocument) :
  ingest_run (store_graph_and_embeddings self None) = (Ok (), []) ∧
  ∃ calls,
    ingest_run (store_graph_and_embeddings self (Some gd)) = (Ok (), calls) ∧
    length calls ≤ 2 ∧
    (¬ embeddable gd → calls = []) ∧
    (embeddable gd →
     head calls = Some (AddGraphDocuments [gd]) ∧
     (∀ docs, AddDocuments docs ∈ calls →
        docs ≠ [] ∧ add_graph_documents self [gd] = Ok () ∧
        docs = embedding_of <$> filter described (nodes gd)) ∧
     (add_graph_documents self [gd] = Ok () → filter described (nodes gd) ≠ [] →
      calls = [AddGraphDocuments [gd];
               AddDocuments (embedding_of <$> filter described (nodes gd))])).
Proof.
  split; [done|]. unfold ingest_run.
  destruct (embeddable_or_not gd) as [Hgd|Hgd].
  - rewrite store_run by done. cbn [app].
    eexists. split; [reflexivity|].
    destruct (add_graph_documents self [gd]) as [[]|e] eqn:Hgraph.
    + destruct (embedding_of <$> filter described (nodes gd)) as [|doc docs] eqn:Hdocs.
      * split_and!; [simpl; lia|done|]. intros _. split_and!; [done| |].
        -- intros docs Hin. apply list_elem_of_singleton in Hin. done.
        -- intros _ Hne. apply fmap_nil_inv in Hdocs. done.
      * split_and!; [simpl; lia|done|]. intros _. split_and!; [done| |done].
        intros docs' Hin. apply elem_of_cons in Hin as [[=]|Hin].
        apply list_elem_of_singleton in Hin. by injection Hin as ->.
    + cbn beta iota.
      split_and!; [simpl; lia|done|]. intros _. split_and!; [done| |done].
      intros docs Hin. apply list_elem_of_singleton in Hin. done.
  - rewrite store_run_invalid by done.
    exists []. split_and!; [done|simpl; lia|done|done].
Qed.

Lemma store_graph_then_embeddings_witness :
  let self := {| extraction_invoke := λ _, Raise (Exception "Exception");
                 validate := λ _, Raise (Exception "Exception");
                 add_graph_documents := λ _, Ok ();
                 add_documents := λ _, Raise (Exception "Exception");
                 graph_query := λ _ _, Ok [] |} in
  let node := {| node_id := "entity_1"; node_type := "Provvedimento";
                 properties := {[ "description" := PyStr "test description" ]} |} in
  let numbered := {| node_id := "entity_2"; node_type := "Provvedimento";
                     properties := {[ "description" := PyInt 7 ]} |} in
  let source := {| page_content := PyStr ""; metadata := ∅ |} in
  let gd := {| nodes := [node]; edges := []; gd_source := source |} in
  let gd' := {| nodes := [node; numbered]; edges := []; gd_source := source |} in
  ingest_run (store_graph_and_embeddings self (Some gd)) =
    (Ok (), [AddGraphDocuments [gd]; AddDocuments [embedding_of node]]) ∧
  ingest_run (store_graph_and_embeddings self (Some gd')) = (Ok (), []).
Proof.
  intros self node numbered source gd gd'.
  assert (described node) as Hnode by reflexivity.
  assert (described numbered) as Hnumbered by reflexivity.
  assert (embeddable gd) as Hgd.
  { intros n Hin _. apply list_elem_of_singleton in Hin as ->.
    by exists "test description". }
  assert (¬ embeddable gd') as Hgd'.
  { intros Hall. destruct (Hall numbered) as [text Htext]; [|exact Hnumbered|].
    - apply list_elem_of_further, list_elem_of_here.
    - assert (dict_get (properties numbered) "description" (PyStr "") = PyInt 7) as Hseven
        by reflexivity.
      rewrite Hseven in Htext. discriminate Htext. }
  split.
  - destruct (store_graph_then_embeddings self gd)
      as (_ & calls & Hrun & _ & _ & Hvalid).
    destruct (Hvalid Hgd) as (_ & _ & Hboth).
    rewrite Hrun. f_equal. apply Hboth; [reflexivity|].
    assert (filter described (nodes gd) = [node]) as -> by (vm_compute; reflexivity).
    done.
  - destruct (store_graph_then_embeddings self gd')
      as (_ & calls & Hrun & _ & Hinvalid & _).
    rewrite Hrun. f_equal. by apply Hinvalid.
Defined.

(** X26: [process_chunk] raises nothing. A chunk without text calls no
    service. Otherwise the text is extracted once. When the extraction
    yields a graph (also the empty graph it yields when the chain raises or
    its dictionary does not validate), the graph document converted from
    it is stored next, followed only by embeddings; an empty graph
    document is stored, and nothing embedded, when the extraction fails.
    When the chain replies with a value that is neither a graph nor a
    dictionary, nothing is converted and nothing is stored. *)
Theorem process_chunk_pipeline (self : GraphRAGIngestor)
    (chunk_data : gmap string string) (source_document : string) :
  let chunk_id := default "" (chunk_data !! "id") in
  let text := default "" (chunk_data !! "testo") in
  (text = "" → ingest_run (process_chunk self chunk_data source_document) = (Ok (), [])) ∧
  (text ≠ "" →
   (∀ v, extraction_invoke self text = Ok (AsValue v) → ¬ is_dict v →
      ingest_run (process_chunk self chunk_data source_document)
        = (Ok (), [ExtractionInvoke text])) ∧
   (∀ kg, extracted self text = AsObject kg →
      ∃ gd rest,
        convert_to_graph_document kg chunk_id source_document = Some gd ∧
        ingest_run (process_chunk self chunk_data source_document) =
          (Ok (), ExtractionInvoke text :: AddGraphDocuments [gd] :: rest) ∧
        (∀ c, c ∈ rest → ∃ docs, c = AddDocuments docs) ∧
        (extraction_fails self text → nodes gd = [] ∧ edges gd = [] ∧ rest = []))).
Proof.
  intros chunk_id text. unfold process_chunk. fold chunk_id text. split.
  - intros ->. done.
  - intros Htext. destruct (String.eqb_spec text "") as [|_]; [done|].
    unfold ingest_run. cbv [mbind I_bind]. rewrite extract_run. split.
    + intros v Hreply Hvalue.
      assert (extracted self text = AsValue v) as ->; [|done].
      unfold extracted. rewrite Hreply. destruct v; try done.
      exfalso. apply Hvalue. by eexists.
    + intros kg Hkg. rewrite Hkg. cbn [convert_extracted].
      destruct (convert_to_graph_document kg chunk_id source_document) as [gd|] eqn:Hgd;
        [|done].
      rewrite store_run by (by eapply converted_embeddable). cbn [app].
      eexists _, _. split; [reflexivity|]. split; [reflexivity|]. split.
      * intros c Hc. destruct (add_graph_documents self _); [|by apply elem_of_nil in Hc].
        destruct (embedding_of <$> _) as [|doc docs]; [by apply elem_of_nil in Hc|].
        apply list_elem_of_singleton in Hc. by eexists.
      * intros Hfails.
        assert (kg = {| entities := []; relationships := [] |}) as ->.
        { unfold extracted in Hkg.
          destruct Hfails as [[e He]|(d & e & He & Hd)]; rewrite He in Hkg;
            [|rewrite Hd in Hkg]; by injection Hkg as <-. }
        injection Hgd as <-. split_and!; [done|done|]. cbn.
        by destruct (add_graph_documents self _) as [[]|].
Qed.

Lemma process_chunk_pipeline_witness :
  let failing := {| extraction_invoke := λ _, Raise (Exception "Exception");
                    validate := λ _, Raise (Exception "Exception");
                    add_graph_documents := λ _, Ok ();
                    add_documents := λ _, Ok ();
                    graph_query := λ _ _, Ok [] |} in
  let unparsed := {| extraction_invoke := λ _, Ok (AsValue PyNone);
                     validate := λ _, Raise (Exception "Exception");
                     add_graph_documents := λ _, Ok ();
                     add_documents := λ _, Ok ();
                     graph_query := λ _ _, Ok [] |} in
  let chunk_data : gmap string string := {[ "id" := "chunk_1"; "testo" := "Test text" ]} in
  ingest_run (process_chunk failing ∅ "test_doc") = (Ok (), []) ∧
  (∃ gd, ingest_run (process_chunk failing chunk_data "test_doc") =
           (Ok (), [ExtractionInvoke "Test text"; AddGraphDocuments [gd]]) ∧
         nodes gd = [] ∧ edges gd = []) ∧
  ingest_run (process_chunk unparsed chunk_data "test_doc") =
    (Ok (), [ExtractionInvoke "Test text"]).
Proof.
  intros failing unparsed chunk_data.
  assert (default "" (chunk_data !! "testo") = "Test text") as Htext
    by (vm_compute; reflexivity).
  assert (default "" (chunk_data !! "testo") ≠ "") as Hfull by (by rewrite Htext).
  split_and!.
  - apply (process_chunk_pipeline failing ∅ "test_doc"). reflexivity.
  - destruct (process_chunk_pipeline failing chunk_data "test_doc") as [_ Hrun].
    destruct (Hrun Hfull) as [_ Hgraph].
    destruct (Hgraph {| entities := []; relationships := [] |})
      as (gd & rest & _ & Hcalls & _ & Hempty); [by rewrite Htext|].
    destruct Hempty as (Hnodes & Hedges & ->); [left; by eexists|].
    exists gd. rewrite Htext in Hcalls. split_and!; [exact Hcalls|exact Hnodes|exact Hedges].
  - destruct (process_chunk_pipeline unparsed chunk_data "test_doc") as [_ Hrun].
    destruct (Hrun Hfull) as [Hvalue _]. rewrite Htext in Hvalue.
    apply (Hvalue PyNone); [reflexivity|]. by intros [d Hd].
Defined.

(** X27: [document_already_processed] raises nothing and queries the graph
    once, with the document as parameter: it answers true exactly when the
    query returns a first record whose count is positive, and false when the
    query fails, returns no record, or the record has no usable count. *)
Theorem document_check (self : GraphRAGIngestor) (source_document : string) :
  let params : dict := {[ "source_document" := PyStr source_document ]} in
  ∃ answer,
    ingest_run (document_already_processed self source_document) =
      (Ok answer, [IngestQuery processed_query params]) ∧
    (answer = true ↔
     ∃ record records count,
       graph_query self processed_query params = Ok (record :: records) ∧
       record !! "count" = Some count ∧ positive count = Ok true).
Proof.
  intros params. unfold document_already_processed. fold params. unfold_I.
  destruct (graph_query self processed_query params) as [[|record records]|e] eqn:Hquery;
    cbn [app].
  - exists false. split; [done|]. split; [done|]. by intros (? & ? & ? & [=] & _).
  - unfold dict_index. destruct (record !! "count") as [count|] eqn:Hcount.
    + destruct (positive count) as [b|e] eqn:Hpos.
      * exists b. split; [done|]. split.
        -- intros ->. by eexists _, _, _.
        -- intros (? & ? & c & [= <- <-] & Hc & Hp).
           rewrite Hcount in Hc. injection Hc as <-.
           rewrite Hpos in Hp. by injection Hp.
      * exists false. split; [done|]. split; [done|].
        intros (? & ? & c & [= <- <-] & Hc & Hp).
        rewrite Hcount in Hc. injection Hc as <-.
        rewrite Hpos in Hp. discriminate Hp.
    + exists false. split; [done|]. split; [done|].
      intros (? & ? & c & [= <- <-] & Hc & _).
      rewrite Hcount in Hc. discriminate Hc.
  - exists false. split; [done|]. split; [done|]. by intros (? & ? & ? & [=] & _).
Qed.

Lemma document_check_witness :
  let self := {| extraction_invoke := λ _, Raise (Exception "Exception");
                 validate := λ _, Raise (Exception "Exception");
                 add_graph_documents := λ _, Ok ();
                 add_documents := λ _, Ok ();
                 graph_query := λ _ _, Ok [ {[ "count" := PyInt 3 ]} ] |} in
  ∃ call, ingest_run (document_already_processed self "test_doc") = (Ok true, [call]).
Proof.
  intros self.
  destruct (document_check self "test_doc") as (answer & Hrun & Hiff).
  assert (answer = true) as ->.
  { apply Hiff. exists {[ "count" := PyInt 3 ]}, [], (PyInt 3).
    split_and!; [reflexivity|by vm_compute|reflexivity]. }
  eexists. exact Hrun.
Defined.

End IngestSpec.
